(** * kiss_slam.stub_odometry: trajectory replay odometry

    A shallow embedding of [src/kiss_slam/stub_odometry.py], and of the
    dataloader-name callback and the configuration dict of
    [src/kiss_slam/tools/cli.py].

    Python floats and numpy float64 scalars are IEEE 754 binary64 values;
    they are modelled by Rocq's primitive floats, whose comparison and
    arithmetic are the same IEEE operations.  Exceptions are modelled by a
    small error monad.  Numerical kernels that live outside the module
    (numpy, scipy, the pybind interpolation kernel, the kiss_icp
    preprocessing and voxel map) are fields of the [Externals] class. *)

From Stdlib Require Import ZArith Lia List Bool String Ascii PeanoNat.
From Stdlib Require Import Sorted Permutation.
From Stdlib Require Import Floats.
From Equations.Prop Require Import Equations Logic.
Import ListNotations.

Set Implicit Arguments.

(* ================================================================== *)
(** * Part I: the program *)

(* ------------------------------------------------------------------ *)
(** ** Exceptions *)

Inductive exn : Type :=
| AssertionError
| IndexError
| KeyError
| ValueError
| LinAlgError.

Inductive result (A : Type) : Type :=
| Ok (a : A)
| Raise (e : exn).

Arguments Ok {A} a.
Arguments Raise {A} e.

Definition bind {A B : Type} (m : result A) (k : A -> result B) : result B :=
  match m with
  | Ok a => k a
  | Raise e => Raise e
  end.

Declare Scope py_scope.
Delimit Scope py_scope with py.
Notation "x <- m ;; k" := (bind m (fun x => k))
  (at level 61, m at next level, right associativity) : py_scope.
Notation "'assert' b ;; k" := (if b then k else Raise AssertionError)
  (at level 61, b at next level, right associativity) : py_scope.

(** [opt or e]: a library call that returns or raises [e]. *)
Definition or_raise {A : Type} (o : option A) (e : exn) : result A :=
  match o with
  | Some a => Ok a
  | None => Raise e
  end.

(* ------------------------------------------------------------------ *)
(** ** IEEE comparison *)

Module FloatOrder.

Local Open Scope float_scope.

(** [x == x]: true for every float but NaN. *)
Definition not_nan (x : float) : Prop := (x =? x) = true.

Definition sf_nan (x : spec_float) : bool :=
  match x with
  | S754_nan => true
  | _ => false
  end.

(** Position of a value on the extended real line: sign class, then
    exponent, then mantissa (the last two negated below zero).  Both
    zeros share one position. *)
Definition rank (x : spec_float) : Z * Z * Z :=
  match x with
  | S754_zero _ => (0, 0, 0)%Z
  | S754_infinity true => (-2, 0, 0)%Z
  | S754_infinity false => (2, 0, 0)%Z
  | S754_nan => (0, 0, 0)%Z
  | S754_finite true m e => (-1, - e, Zneg m)%Z
  | S754_finite false m e => (1, e, Zpos m)%Z
  end.

Definition key (x : float) : Z * Z * Z := rank (Prim2SF x).

Definition lex3 (p q : Z * Z * Z) : comparison :=
  match p, q with
  | (a, b, c), (a', b', c') =>
      match (a ?= a')%Z with
      | Eq => match (b ?= b')%Z with
              | Eq => (c ?= c')%Z
              | r => r
              end
      | r => r
      end
  end.

Definition klt (p q : Z * Z * Z) : Prop :=
  match p, q with
  | (a, b, c), (a', b', c') =>
      (a < a' \/ (a = a' /\ (b < b' \/ (b = b' /\ c < c'))))%Z
  end.

(** [a < b] holds; [a == b] does not. *)
Definition flt (a b : float) : Prop := (a <? b) = true.
Definition fneq (a b : float) : Prop := (a =? b) = false.

(** [m] is a smallest (largest) element of [l] for [<]. *)
Definition smallest (l : list float) (m : float) : Prop :=
  In m l /\ forall k, In k l -> (k <? m) = false.

Definition largest (l : list float) (m : float) : Prop :=
  In m l /\ forall k, In k l -> (m <? k) = false.

End FloatOrder.

(* ------------------------------------------------------------------ *)
(** ** Python built-ins used by the module *)

Module Py.

Local Open Scope float_scope.

(** [str.isspace] on one character, for code points below 256. *)
Definition is_space (c : ascii) : bool :=
  let n := nat_of_ascii c in
  ((9 <=? n) && (n <=? 13) || (28 <=? n) && (n <=? 32)
   || (n =? 133) || (n =? 160))%nat.

Fixpoint lstrip (s : string) : string :=
  match s with
  | EmptyString => EmptyString
  | String c s' => if is_space c then lstrip s' else s
  end.

Definition rev_string (s : string) : string :=
  string_of_list_ascii (rev (list_ascii_of_string s)).

Definition rstrip (s : string) : string :=
  rev_string (lstrip (rev_string s)).

(** [s.strip()] *)
Definition strip (s : string) : string := rstrip (lstrip s).

(** [s.split()] with no separator: maximal runs of non-space characters.
    [cur] is the word being read, if any. *)
Fixpoint split_from (cur : option string) (s : string) : list string :=
  match s with
  | EmptyString =>
      match cur with
      | Some w => [w]
      | None => []
      end
  | String c s' =>
      if is_space c then
        match cur with
        | Some w => w :: split_from None s'
        | None => split_from None s'
        end
      else
        match cur with
        | Some w => split_from (Some (w ++ String c EmptyString)%string) s'
        | None => split_from (Some (String c EmptyString)) s'
        end
  end.

Definition split (s : string) : list string := split_from None s.

(** [l[i]] on a list: negative indices count from the end, anything
    outside [-len(l), len(l)) raises [IndexError]. *)
Definition getitem {A : Type} (l : list A) (i : Z) : result A :=
  let n := Z.of_nat (List.length l) in
  let j := (if i <? 0 then i + n else i)%Z in
  if ((j <? 0) || (n <=? j))%Z then Raise IndexError
  else or_raise (nth_error l (Z.to_nat j)) IndexError.

(** [min(l)]: an item replaces the running minimum when [item < minimum];
    an empty argument is a [ValueError]. *)
Definition keep_min (m y : float) : float := if y <? m then y else m.

Definition min (l : list float) : result float :=
  match l with
  | [] => Raise ValueError
  | x :: r => Ok (fold_left keep_min r x)
  end.

(** [max(l)]: an item replaces the running maximum when [item > maximum]. *)
Definition keep_max (m y : float) : float := if m <? y then y else m.

Definition max (l : list float) : result float :=
  match l with
  | [] => Raise ValueError
  | x :: r => Ok (fold_left keep_max r x)
  end.

(** [sorted(l)] compares with [<] only and is stable.  On keys without NaN
    [<] is a strict total order up to [==], so the result is the one the
    order determines; it is computed here by stable insertion. *)
Fixpoint insort (x : float) (l : list float) : list float :=
  match l with
  | [] => [x]
  | y :: l' => if x <? y then x :: l else y :: insort x l'
  end.

Definition sorted (l : list float) : list float :=
  fold_left (fun acc x => insort x acc) l [].

(** [bisect.bisect_left(a, x)]:
<<
    lo, hi = 0, len(a)
    while lo < hi:
        mid = (lo + hi) // 2
        if a[mid] < x: lo = mid + 1
        else: hi = mid
    return lo
>>
    Inside the loop [mid < hi <= len(a)], so [a[mid]] is in range. *)
Equations? bisect_loop (a : list float) (x : float) (lo hi : nat) : nat
  by wf (hi - lo)%nat lt :=
  bisect_loop a x lo hi with inspect (lo <? hi)%nat => {
    | exist _ false _ := lo
    | exist _ true Hlt with (nth ((lo + hi) / 2) a nan <? x) => {
        | true := bisect_loop a x (S ((lo + hi) / 2)) hi
        | false := bisect_loop a x lo ((lo + hi) / 2) } }.
Proof.
  all: apply Nat.ltb_lt in Hlt.
  all: assert (Hm : (lo <= (lo + hi) / 2 < hi)%nat)
      by (split; [apply Nat.div_le_lower_bound
                 | apply Nat.Div0.div_lt_upper_bound]; lia).
  all: change (fst (Nat.divmod (lo + hi) 1 0 1)) with ((lo + hi) / 2)%nat.
  all: lia.
Qed.

Definition bisect_left (a : list float) (x : float) : nat :=
  bisect_loop a x 0 (List.length a).

(** A [dict] with float keys, in insertion order.  Keys are compared with
    [==]; assigning to a key that is present keeps the stored key and
    replaces its value. *)
Section Dict.
Variable V : Type.

Definition dict : Type := list (float * V).

Fixpoint dict_get (d : dict) (k : float) : option V :=
  match d with
  | [] => None
  | (k', v) :: d' => if k' =? k then Some v else dict_get d' k
  end.

Fixpoint dict_set (d : dict) (k : float) (v : V) : dict :=
  match d with
  | [] => [(k, v)]
  | (k', v') :: d' =>
      if k' =? k then (k', v) :: d' else (k', v') :: dict_set d' k v
  end.

(** [k in d] *)
Definition dict_contains (d : dict) (k : float) : bool :=
  match dict_get d k with
  | Some _ => true
  | None => false
  end.

(** [d[k]] *)
Definition dict_getitem (d : dict) (k : float) : result V :=
  or_raise (dict_get d k) KeyError.

(** [d.keys()] *)
Definition dict_keys (d : dict) : list float := map fst d.

(** No two keys are [==]: the invariant of a dict. *)
Definition distinct_keys (d : dict) : Prop :=
  ForallOrdPairs FloatOrder.fneq (dict_keys d).
End Dict.

End Py.

(* ------------------------------------------------------------------ *)
(** ** Poses: 4x4 float64 arrays *)

Definition vec3 : Type := float * float * float.
Definition vec4 : Type := float * float * float * float.
Definition mat3 : Type := vec3 * vec3 * vec3.
Definition mat4 : Type := vec4 * vec4 * vec4 * vec4.

Local Open Scope float_scope.

(** [np.eye(4)] *)
Definition eye4 : mat4 :=
  ((1, 0, 0, 0),
   (0, 1, 0, 0),
   (0, 0, 1, 0),
   (0, 0, 0, 1)).

(** [T[:3, :3] = r] *)
Definition set_rotation (T : mat4) (r : mat3) : mat4 :=
  match T, r with
  | ((_, _, _, t03), (_, _, _, t13), (_, _, _, t23), row3),
    ((r00, r01, r02), (r10, r11, r12), (r20, r21, r22)) =>
      ((r00, r01, r02, t03),
       (r10, r11, r12, t13),
       (r20, r21, r22, t23),
       row3)
  end.

(** [T[:3, 3] = v] *)
Definition set_translation (T : mat4) (v : vec3) : mat4 :=
  match T, v with
  | ((t00, t01, t02, _), (t10, t11, t12, _), (t20, t21, t22, _), row3),
    (x, y, z) =>
      ((t00, t01, t02, x),
       (t10, t11, t12, y),
       (t20, t21, t22, z),
       row3)
  end.

(* ------------------------------------------------------------------ *)
(** ** What the module imports *)

(** The file system: a path that exists names a text file, given by the
    lines that iterating over the opened file yields. *)
Definition Path : Type := string.
Definition FileSystem : Type := Path -> option (list string).

Class Externals : Type := {
  (** built-in [float(s)] on a string; [None] is [ValueError] *)
  py_float : string -> option float;
  (** scipy: [Rotation.from_quat(q).as_matrix()], [q] in x, y, z, w
      order; [None] is [ValueError] *)
  quat_as_matrix : vec4 -> option mat3;
  (** numpy: [a @ b] and [np.linalg.inv(a)]; [None] is [LinAlgError] *)
  matmul : mat4 -> mat4 -> mat4;
  linalg_inv : mat4 -> option mat4;
  (** [kiss_slam_pybind._interpolate_se3d(t, pose1, pose2)] *)
  _interpolate_se3d : float -> mat4 -> mat4 -> mat4;
  (** kiss_icp: configuration, preprocessor, voxel map, point clouds *)
  KISSConfig : Type;
  Preprocessor : Type;
  VoxelHashMap : Type;
  PointCloud : Type;
  mapping_voxel_size : KISSConfig -> option float;
  get_preprocessor : KISSConfig -> Preprocessor;
  get_voxel_hash_map : KISSConfig -> VoxelHashMap;
  preprocess : Preprocessor -> PointCloud -> list float -> mat4 -> PointCloud;
  voxel_down_sample : PointCloud -> float -> PointCloud;
  map_update : VoxelHashMap -> PointCloud -> mat4 -> VoxelHashMap
}.

(* ------------------------------------------------------------------ *)
(** ** stub_odometry.py *)

Section StubOdometry.

Context {E : Externals}.

Local Open Scope py_scope.

Definition float_ (s : string) : result float :=
  or_raise (py_float s) ValueError.

Definition create_transformation (translation : vec3) (quaternion_xyzw : vec4)
  : result mat4 :=
  let T := eye4 in
  r <- or_raise (quat_as_matrix quaternion_xyzw) ValueError ;;
  let T := set_rotation T r in
  let T := set_translation T translation in
  Ok T.

(** The body of [for line in f]. *)
Definition read_line (trajectory : Py.dict mat4) (line : string)
  : result (Py.dict mat4) :=
  let parts := Py.split (Py.strip line) in
  if (List.length parts =? 8)%nat then
    p0 <- Py.getitem parts 0 ;; timestamp <- float_ p0 ;;
    p1 <- Py.getitem parts 1 ;; tx <- float_ p1 ;;
    p2 <- Py.getitem parts 2 ;; ty <- float_ p2 ;;
    p3 <- Py.getitem parts 3 ;; tz <- float_ p3 ;;
    let translation := (tx, ty, tz) in
    p4 <- Py.getitem parts 4 ;; qx <- float_ p4 ;;
    p5 <- Py.getitem parts 5 ;; qy <- float_ p5 ;;
    p6 <- Py.getitem parts 6 ;; qz <- float_ p6 ;;
    p7 <- Py.getitem parts 7 ;; qw <- float_ p7 ;;
    let quaternion_xyzw := (qx, qy, qz, qw) in
    pose <- create_transformation translation quaternion_xyzw ;;
    Ok (Py.dict_set trajectory timestamp pose)
  else Ok trajectory.

Fixpoint read_lines (trajectory : Py.dict mat4) (f : list string)
  : result (Py.dict mat4) :=
  match f with
  | [] => Ok trajectory
  | line :: rest =>
      trajectory' <- read_line trajectory line ;;
      read_lines trajectory' rest
  end.

Definition read_tum_trajectory (fs : FileSystem) (trajectory_fp : Path)
  : result (Py.dict mat4) :=
  match fs trajectory_fp with
  | None => Raise AssertionError
  | Some f => read_lines [] f
  end.

Record StubOdometry : Type := {
  config : KISSConfig;
  preprocessor : Preprocessor;
  last_pose : mat4;
  local_map : VoxelHashMap;
  _trajectory : Py.dict mat4;
  _sorted_trajectory_times : list float
}.

Definition __init__ (fs : FileSystem) (config : KISSConfig)
  (trajectory_fp : Path) : result StubOdometry :=
  trajectory <- read_tum_trajectory fs trajectory_fp ;;
  Ok {| config := config;
        preprocessor := get_preprocessor config;
        last_pose := eye4;
        local_map := get_voxel_hash_map config;
        _trajectory := trajectory;
        _sorted_trajectory_times := Py.sorted (Py.dict_keys trajectory) |}.

(** [stamp] is a float64 scalar (the caller passes the minimum and the
    maximum of a float64 array), so [/] is IEEE division and does not
    raise. *)
Definition _get_pose (self : StubOdometry) (stamp : float) : result mat4 :=
  if Py.dict_contains self.(_trajectory) stamp then
    Py.dict_getitem self.(_trajectory) stamp
  else
    first <- Py.getitem self.(_sorted_trajectory_times) 0 ;;
    if stamp <? first then Ok eye4
    else
      let upper_idx := Z.of_nat (Py.bisect_left self.(_sorted_trajectory_times) stamp) in
      let lower_idx := (upper_idx - 1)%Z in
      assert (lower_idx >=? 0)%Z ;;
      t1 <- Py.getitem self.(_sorted_trajectory_times) lower_idx ;;
      t2 <- Py.getitem self.(_sorted_trajectory_times) upper_idx ;;
      assert ((t1 <? stamp) && (stamp <? t2)) ;;
      pose1 <- Py.dict_getitem self.(_trajectory) t1 ;;
      pose2 <- Py.dict_getitem self.(_trajectory) t2 ;;
      let t := (stamp - t1) / (t2 - t1) in
      Ok (_interpolate_se3d t pose1 pose2).

(** Returns the pair [(deskewed_frame, None)] and the object after the
    call; an exception leaves the object as it was. *)
Definition register_frame (self : StubOdometry) (frame : PointCloud)
  (timestamps : list float)
  : result ((PointCloud * option mat4) * StubOdometry) :=
  min_stamp <- Py.min timestamps ;;
  max_stamp <- Py.max timestamps ;;
  min_stamp_pose <- _get_pose self min_stamp ;;
  max_stamp_pose <- _get_pose self max_stamp ;;
  inv_min <- or_raise (linalg_inv min_stamp_pose) LinAlgError ;;
  let motion_delta := matmul inv_min max_stamp_pose in
  let deskewed_frame :=
    preprocess self.(preprocessor) frame timestamps motion_delta in
  match mapping_voxel_size self.(config) with
  | None => Raise AssertionError
  | Some voxel_size =>
      let frame_downsample :=
        voxel_down_sample deskewed_frame (voxel_size * 0.5) in
      let new_pose := matmul self.(last_pose) motion_delta in
      let local_map' := map_update self.(local_map) frame_downsample new_pose in
      Ok ((deskewed_frame, None),
          {| config := self.(config);
             preprocessor := self.(preprocessor);
             last_pose := new_pose;
             local_map := local_map';
             _trajectory := self.(_trajectory);
             _sorted_trajectory_times := self.(_sorted_trajectory_times) |})
  end.

(** The object after a frame with motion delta [motion_delta] and
    deskewed points [deskewed_frame] has been registered. *)
Definition advanced (self : StubOdometry) (voxel_size : float)
  (deskewed_frame : PointCloud) (motion_delta : mat4) : StubOdometry :=
  let new_pose := matmul (last_pose self) motion_delta in
  {| config := config self;
     preprocessor := preprocessor self;
     last_pose := new_pose;
     local_map :=
       map_update (local_map self)
         (voxel_down_sample deskewed_frame (voxel_size * 0.5)) new_pose;
     _trajectory := _trajectory self;
     _sorted_trajectory_times := _sorted_trajectory_times self |}.

(** The number of whitespace-separated fields of a line. *)
Definition n_fields (line : string) : nat :=
  List.length (Py.split (Py.strip line)).

(** A line of eight fields that all read as numbers, with a quaternion
    that scipy accepts: the sample [(timestamp, pose)] it stands for. *)
Definition well_formed (line : string) (timestamp : float) (pose : mat4)
  : Prop :=
  exists p0 p1 p2 p3 p4 p5 p6 p7 tx ty tz qx qy qz qw r,
    Py.split (Py.strip line) = [p0; p1; p2; p3; p4; p5; p6; p7] /\
    py_float p0 = Some timestamp /\
    py_float p1 = Some tx /\ py_float p2 = Some ty /\ py_float p3 = Some tz /\
    py_float p4 = Some qx /\ py_float p5 = Some qy /\
    py_float p6 = Some qz /\ py_float p7 = Some qw /\
    quat_as_matrix (qx, qy, qz, qw) = Some r /\
    pose = set_translation (set_rotation eye4 r) (tx, ty, tz).

(** The objects a program can hold: built by [__init__], then advanced
    by [register_frame]. *)
Inductive reachable : StubOdometry -> Prop :=
| reach_init fs config trajectory_fp self :
    __init__ fs config trajectory_fp = Ok self -> reachable self
| reach_frame self frame timestamps out self' :
    reachable self ->
    register_frame self frame timestamps = Ok (out, self') ->
    reachable self'.

(** The stored timestamps, and the assumption that they are reals. *)
Definition stored_times (self : StubOdometry) : list float :=
  Py.dict_keys self.(_trajectory).

Definition times_not_nan (self : StubOdometry) : Prop :=
  Forall FloatOrder.not_nan (stored_times self).

(** The trajectory has distinct keys and the list of times is the sorted
    list of its keys. *)
Definition store_ok (self : StubOdometry) : Prop :=
  Py.distinct_keys self.(_trajectory) /\
  self.(_sorted_trajectory_times) = Py.sorted (stored_times self).

(** [stamp] is none of the stored timestamps. *)
Definition not_stored (self : StubOdometry) (stamp : float) : Prop :=
  forall k, In k (stored_times self) -> (k =? stamp) = false.

End StubOdometry.

(* ------------------------------------------------------------------ *)
(** ** Parts of a pose and of a frame's registration *)

Section Frames.

Context {E : Externals}.

Local Open Scope py_scope.

(** The last row of a pose, and its translation column. *)
Definition bottom_row (T : mat4) : vec4 :=
  let '(_, _, _, row3) := T in row3.

Definition translation_of (T : mat4) : vec3 :=
  let '((_, _, _, x), (_, _, _, y), (_, _, _, z), _) := T in (x, y, z).

(** The first lines of [register_frame]: the motion delta of a frame. *)
Definition motion_delta (self : StubOdometry) (timestamps : list float)
  : result mat4 :=
  min_stamp <- Py.min timestamps ;;
  max_stamp <- Py.max timestamps ;;
  min_stamp_pose <- _get_pose self min_stamp ;;
  max_stamp_pose <- _get_pose self max_stamp ;;
  inv_min <- or_raise (linalg_inv min_stamp_pose) LinAlgError ;;
  Ok (matmul inv_min max_stamp_pose).

End Frames.

(* ------------------------------------------------------------------ *)
(** ** tools/cli.py *)

Module Cli.

Local Open Scope string_scope.

(** [c.lower()] on one character, for code points below 256: the
    capitals A-Z and the accented capitals of Latin-1 move up by 32. *)
Definition lower_char (c : ascii) : ascii :=
  let n := nat_of_ascii c in
  if ((65 <=? n) && (n <=? 90) || (192 <=? n) && (n <=? 214)
      || (216 <=? n) && (n <=? 222))%nat
  then ascii_of_nat (n + 32)
  else c.

(** [s.lower()] *)
Fixpoint lower (s : string) : string :=
  match s with
  | EmptyString => EmptyString
  | String c s' => String (lower_char c) (lower s')
  end.

(** [sep.join(l)] *)
Fixpoint join (sep : string) (l : list string) : string :=
  match l with
  | [] => ""
  | [x] => x
  | x :: rest => x ++ sep ++ join sep rest
  end.

(** What a callback does: it returns, or raises [typer.BadParameter]. *)
Inductive outcome : Type :=
| Return (value : option string)
| BadParameter (message : string).

(** [name_callback(value)], with [dl] what [available_dataloaders()]
    returns.  [value] is [None] when the option is not given. *)
Definition name_callback (dl : list string) (value : option string)
  : outcome :=
  match value with
  | None => Return None
  | Some "" => Return (Some "")
  | Some v =>
      if negb (existsb (String.eqb (lower v)) (map lower dl))
      then BadParameter ("Supported dataloaders are: " ++ join ", " dl)
      else
        match find (fun d => String.eqb (lower v) (lower d)) dl with
        | Some d => Return (Some d)
        | None => Return value
        end
  end.

(** The head of [kiss_slam]: the keyword dict handed to the pipeline
    configuration.  [PyObject] is what the dict holds (paths, strings,
    YAML values); [path_name] is pathlib's [Path.name]. *)
Section UserConfig.

Variable PyObject : Type.
Variable of_path : Path -> PyObject.
Variable of_str : string -> PyObject.
Variable path_name : Path -> string.

(** A [dict] with string keys, in insertion order. *)
Definition kwargs : Type := list (string * PyObject).

Fixpoint kw_get (d : kwargs) (k : string) : option PyObject :=
  match d with
  | [] => None
  | (k', v) :: d' => if String.eqb k' k then Some v else kw_get d' k
  end.

Fixpoint kw_set (d : kwargs) (k : string) (v : PyObject) : kwargs :=
  match d with
  | [] => [(k, v)]
  | (k', v') :: d' =>
      if String.eqb k' k then (k', v) :: d' else (k', v') :: kw_set d' k v
  end.

(** [d.get(k, default)] *)
Definition kw_get_default (d : kwargs) (k : string) (default : PyObject)
  : PyObject :=
  match kw_get d k with
  | Some v => v
  | None => default
  end.

(** [d.update(m)] for a mapping [m] *)
Definition kw_update (d m : kwargs) : kwargs :=
  fold_left (fun acc kv => kw_set acc (fst kv) (snd kv)) m d.

(** The file's mapping, or the empty one when no file is given. *)
Definition file_mapping (config_file : option kwargs) : kwargs :=
  match config_file with
  | Some m => m
  | None => []
  end.

(** [config_file] is the mapping [yaml.safe_load] reads from [config_fp]
    when the option is given; its keys are strings, as the keyword call
    that receives the dict requires.  A path is always true; a string is true
    unless it is empty. *)
Definition user_rko_lio_config (config_file : option kwargs)
  (log_dir : option Path) (run_name : option string) (data_path : Path)
  : kwargs :=
  let user := [] in
  let user :=
    match config_file with
    | Some m => kw_update user m
    | None => user
    end in
  let user :=
    kw_set user "log_dir"
      match log_dir with
      | Some p => of_path p
      | None => kw_get_default user "log_dir" (of_str "results")
      end in
  let user :=
    kw_set user "run_name"
      match run_name with
      | Some (String c s) => of_str (String c s)
      | _ => kw_get_default user "run_name" (of_str (path_name data_path))
      end in
  user.

End UserConfig.

End Cli.

(* ------------------------------------------------------------------ *)
(** ** An executable instance of the imports

    Exact on the small examples it is used for: decimal integers for
    [float], unnormalised quaternions turned into rotation matrices, plain
    float products for [@], the closed-form inverse of a rigid transform,
    an entrywise blend for the interpolation (the SE(3) interpolation when
    the two rotations are equal), and the test doubles for kiss_icp
    (identity deskew, no-op downsample, recording map). *)

Module Simple.

Local Open Scope float_scope.

Definition digit (c : ascii) : option float :=
  let n := nat_of_ascii c in
  if (48 <=? n)%nat
  then nth_error [0; 1; 2; 3; 4; 5; 6; 7; 8; 9] (n - 48)
  else None.

Fixpoint digits_value (acc : float) (s : string) : option float :=
  match s with
  | EmptyString => Some acc
  | String c s' =>
      match digit c with
      | Some d => digits_value (acc * 10 + d) s'
      | None => None
      end
  end.

Definition float_of_digits (s : string) : option float :=
  match s with
  | EmptyString => None
  | _ => digits_value 0 s
  end.

Definition rotation_of_quat (q : vec4) : option mat3 :=
  let '(x, y, z, w) := q in
  let n := x * x + y * y + z * z + w * w in
  if n =? 0 then None
  else
    let s := 2 / n in
    Some ((1 - s * (y * y + z * z), s * (x * y - z * w), s * (x * z + y * w)),
          (s * (x * y + z * w), 1 - s * (x * x + z * z), s * (y * z - x * w)),
          (s * (x * z - y * w), s * (y * z + x * w), 1 - s * (x * x + y * y))).

Definition dot4 (r c : vec4) : float :=
  let '(r0, r1, r2, r3) := r in
  let '(c0, c1, c2, c3) := c in
  r0 * c0 + r1 * c1 + r2 * c2 + r3 * c3.

Definition columns (m : mat4) : mat4 :=
  let '((a00, a01, a02, a03), (a10, a11, a12, a13),
        (a20, a21, a22, a23), (a30, a31, a32, a33)) := m in
  ((a00, a10, a20, a30), (a01, a11, a21, a31),
   (a02, a12, a22, a32), (a03, a13, a23, a33)).

Definition mul4 (a b : mat4) : mat4 :=
  let '(r0, r1, r2, r3) := a in
  let '(c0, c1, c2, c3) := columns b in
  let row r := (dot4 r c0, dot4 r c1, dot4 r c2, dot4 r c3) in
  (row r0, row r1, row r2, row r3).

(** [[R t; 0 1]^-1 = [R^T  -R^T t; 0 1]] *)
Definition rigid_inverse (m : mat4) : option mat4 :=
  let '((r00, r01, r02, tx), (r10, r11, r12, ty),
        (r20, r21, r22, tz), _) := m in
  Some ((r00, r10, r20, 0 - (r00 * tx + r10 * ty + r20 * tz)),
        (r01, r11, r21, 0 - (r01 * tx + r11 * ty + r21 * tz)),
        (r02, r12, r22, 0 - (r02 * tx + r12 * ty + r22 * tz)),
        (0, 0, 0, 1)).

Definition blend (t : float) (a b : mat4) : mat4 :=
  let mix x y := (1 - t) * x + t * y in
  let mix4 (r s : vec4) :=
    let '(r0, r1, r2, r3) := r in
    let '(s0, s1, s2, s3) := s in
    (mix r0 s0, mix r1 s1, mix r2 s2, mix r3 s3) in
  let '(a0, a1, a2, a3) := a in
  let '(b0, b1, b2, b3) := b in
  (mix4 a0 b0, mix4 a1 b1, mix4 a2 b2, mix4 a3 b3).

#[export] Instance externals : Externals := {|
  py_float := float_of_digits;
  quat_as_matrix := rotation_of_quat;
  matmul := mul4;
  linalg_inv := rigid_inverse;
  _interpolate_se3d := blend;
  KISSConfig := option float;
  Preprocessor := unit;
  VoxelHashMap := list (list vec3 * mat4);
  PointCloud := list vec3;
  mapping_voxel_size := fun c => c;
  get_preprocessor := fun _ => tt;
  get_voxel_hash_map := fun _ => [];
  preprocess := fun _ frame _ _ => frame;
  voxel_down_sample := fun frame _ => frame;
  map_update := fun m frame pose => (m ++ [(frame, pose)])%list
|}.

Definition newline : string := String (ascii_of_nat 10) EmptyString.

(** A small file system.  [traj.txt] holds the poses at times 0 and 10 of
    a straight run along x; [three.txt] has a third sample;
    [mixed.txt] has a line of five fields; [letters.txt] has a field that
    is no number; [empty.txt] has no line at all. *)
Definition fs : FileSystem := fun path =>
  if String.eqb path "traj.txt" then
    Some ["0 0 0 0 0 0 0 1" ++ newline; "10 10 0 0 0 0 0 1" ++ newline]%string
  else if String.eqb path "three.txt" then
    Some ["4 4 0 0 0 0 0 1" ++ newline; "0 0 0 0 0 0 0 1" ++ newline;
          "10 10 0 0 0 0 0 1" ++ newline]%string
  else if String.eqb path "mixed.txt" then
    Some ["0 0 0 0 0 0 0 1" ++ newline; "1 2 3 4 5" ++ newline]%string
  else if String.eqb path "letters.txt" then
    Some ["0 0 0 0 0 0 0 1" ++ newline; "1 0 0 0 0 0 0 one" ++ newline]%string
  else if String.eqb path "empty.txt" then Some []
  else None.

Definition cfg : option float := Some 1.

Definition translation (x y z : float) : mat4 :=
  ((1, 0, 0, x), (0, 1, 0, y), (0, 0, 1, z), (0, 0, 0, 1)).

(** The object [__init__] builds from [traj.txt]. *)
Definition odometry : StubOdometry :=
  {| config := cfg;
     preprocessor := tt;
     last_pose := eye4;
     local_map := [];
     _trajectory := [(0, eye4); (10, translation 10 0 0)];
     _sorted_trajectory_times := [0; 10] |}.

End Simple.

(* ------------------------------------------------------------------ *)
(** ** More small inputs *)

Module Examples.

Local Open Scope float_scope.

(** [twice.txt] gives the time 0 two poses; the second one stays. *)
Definition fs : FileSystem := fun path =>
  if String.eqb path "twice.txt" then
    Some ["0 0 0 0 0 0 0 1" ++ Simple.newline;
          "0 5 0 0 0 0 0 1" ++ Simple.newline]%string
  else Simple.fs path.

Definition dataloaders : list string := ["Rosbag"; "raw"; "HeLiPR"]%string.

(** What a configuration dict holds. *)
Inductive obj : Type :=
| OPath (p : Path)
| OStr (s : string)
| ONull.

Definition basename (p : Path) : string := p.

Definition config_file : Cli.kwargs obj :=
  [("log_dir", ONull); ("deskew", OStr "true"); ("run_name", OStr "night")]%string.

End Examples.

(* ================================================================== *)
(** * Part II: properties *)

Unset Implicit Arguments.

(* ------------------------------------------------------------------ *)
(** ** The order of binary64 values *)

Module FloatOrderFacts.

Import FloatOrder.
Local Open Scope float_scope.

Lemma lex3_lt p q : lex3 p q = Lt <-> klt p q.
Proof.
  destruct p as [[a b] c], q as [[a' b'] c']; unfold lex3, klt.
  destruct (Z.compare_spec a a'), (Z.compare_spec b b'),
    (Z.compare_spec c c'); split; intros H2;
    try discriminate; try reflexivity; lia.
Qed.

Lemma lex3_eq p q : lex3 p q = Eq <-> p = q.
Proof.
  destruct p as [[a b] c], q as [[a' b'] c']; unfold lex3.
  destruct (Z.compare_spec a a'), (Z.compare_spec b b'),
    (Z.compare_spec c c'); split; intros H2;
    try discriminate; try reflexivity; try congruence;
    injection H2; lia.
Qed.

Lemma lex3_gt p q : lex3 p q = Gt <-> klt q p.
Proof.
  destruct p as [[a b] c], q as [[a' b'] c']; unfold lex3, klt.
  destruct (Z.compare_spec a a'), (Z.compare_spec b b'),
    (Z.compare_spec c c'); split; intros H2;
    try discriminate; try reflexivity; lia.
Qed.

Lemma klt_trans p q r : klt p q -> klt q r -> klt p r.
Proof.
  destruct p as [[a b] c], q as [[a' b'] c'], r as [[a2 b2] c2].
  unfold klt. lia.
Qed.

Lemma klt_irrefl p : ~ klt p p.
Proof. destruct p as [[a b] c]. unfold klt. lia. Qed.

Lemma klt_total p q : klt p q \/ p = q \/ klt q p.
Proof.
  destruct (lex3 p q) eqn:H.
  - right; left. now apply lex3_eq.
  - left. now apply lex3_lt.
  - right; right. now apply lex3_gt.
Qed.

Lemma SFcompare_rank x y :
  sf_nan x = false -> sf_nan y = false ->
  SFcompare x y = Some (lex3 (rank x) (rank y)).
Proof.
  destruct x as [s1|s1| |s1 m1 e1], y as [s2|s2| |s2 m2 e2];
    try discriminate; intros _ _;
    try destruct s1; try destruct s2; try reflexivity.
  cbn. rewrite Z.compare_opp, (Z.compare_antisym e1 e2).
  destruct (e1 ?= e2)%Z; reflexivity.
Qed.

Lemma not_nan_sf x : not_nan x <-> sf_nan (Prim2SF x) = false.
Proof.
  unfold not_nan. rewrite eqb_spec. unfold SFeqb.
  destruct (sf_nan (Prim2SF x)) eqn:Hn.
  - destruct (Prim2SF x); try discriminate. cbn. split; discriminate.
  - rewrite SFcompare_rank by assumption.
    assert (H : lex3 (rank (Prim2SF x)) (rank (Prim2SF x)) = Eq)
      by now apply lex3_eq.
    rewrite H. split; reflexivity.
Qed.

Lemma SFcompare_nan x y :
  sf_nan x = true \/ sf_nan y = true -> SFcompare x y = None.
Proof.
  intros [H|H]; destruct x, y; try discriminate; reflexivity.
Qed.

(** The two comparisons, read on the extended real line. *)
Lemma ltb_klt x y :
  (x <? y) = true <-> not_nan x /\ not_nan y /\ klt (key x) (key y).
Proof.
  rewrite ltb_spec, !not_nan_sf. unfold SFltb, key.
  destruct (sf_nan (Prim2SF x)) eqn:Hx.
  - rewrite SFcompare_nan by auto. split; [discriminate | intros [H _]; discriminate].
  - destruct (sf_nan (Prim2SF y)) eqn:Hy.
    + rewrite SFcompare_nan by auto.
      split; [discriminate | intros [_ [H _]]; discriminate].
    + rewrite SFcompare_rank by assumption. rewrite <- lex3_lt.
      destruct (lex3 _ _); split; try discriminate; auto;
        intros [_ [_ H]]; discriminate.
Qed.

Lemma eqb_key x y :
  (x =? y) = true <-> not_nan x /\ not_nan y /\ key x = key y.
Proof.
  rewrite eqb_spec, !not_nan_sf. unfold SFeqb, key.
  destruct (sf_nan (Prim2SF x)) eqn:Hx.
  - rewrite SFcompare_nan by auto. split; [discriminate | intros [H _]; discriminate].
  - destruct (sf_nan (Prim2SF y)) eqn:Hy.
    + rewrite SFcompare_nan by auto.
      split; [discriminate | intros [_ [H _]]; discriminate].
    + rewrite SFcompare_rank by assumption. rewrite <- lex3_eq.
      destruct (lex3 _ _); split; try discriminate; auto;
        intros [_ [_ H]]; discriminate.
Qed.

Lemma ltb_not_nan_l x y : (x <? y) = true -> not_nan x.
Proof. intros H. now apply ltb_klt in H. Qed.

Lemma ltb_not_nan_r x y : (x <? y) = true -> not_nan y.
Proof. intros H. now apply ltb_klt in H. Qed.

Lemma ltb_trans x y z :
  (x <? y) = true -> (y <? z) = true -> (x <? z) = true.
Proof.
  rewrite !ltb_klt. intros (Hx & _ & H1) (_ & Hz & H2).
  repeat split; auto. eapply klt_trans; eassumption.
Qed.

Lemma ltb_irrefl x : (x <? x) = false.
Proof.
  destruct (x <? x) eqn:H; [|reflexivity].
  apply ltb_klt in H. destruct H as (_ & _ & H). now apply klt_irrefl in H.
Qed.

Lemma ltb_asym x y : (x <? y) = true -> (y <? x) = false.
Proof.
  intros H. destruct (y <? x) eqn:H'; [|reflexivity].
  pose proof (ltb_trans _ _ _ H H') as Hxx. now rewrite ltb_irrefl in Hxx.
Qed.

Lemma eqb_refl x : not_nan x -> (x =? x) = true.
Proof. intros H. exact H. Qed.

Lemma eqb_sym x y : (x =? y) = (y =? x).
Proof.
  destruct (x =? y) eqn:H1, (y =? x) eqn:H2; try reflexivity.
  - apply eqb_key in H1. destruct H1 as (Hx & Hy & Hk).
    assert (H : (y =? x) = true) by (apply eqb_key; auto). congruence.
  - apply eqb_key in H2. destruct H2 as (Hx & Hy & Hk).
    assert (H : (x =? y) = true) by (apply eqb_key; auto). congruence.
Qed.

Lemma eqb_trans x y z :
  (x =? y) = true -> (y =? z) = true -> (x =? z) = true.
Proof.
  rewrite !eqb_key. intros (Hx & _ & H1) (_ & Hz & H2).
  repeat split; auto. congruence.
Qed.

Lemma eqb_ltb_l x y z : (x =? y) = true -> (x <? z) = (y <? z).
Proof.
  intros H. apply eqb_key in H. destruct H as (Hx & Hy & Hk).
  destruct (x <? z) eqn:H1, (y <? z) eqn:H2; try reflexivity.
  - apply ltb_klt in H1. destruct H1 as (_ & Hz & H1). rewrite Hk in H1.
    assert (H : (y <? z) = true) by (apply ltb_klt; auto). congruence.
  - apply ltb_klt in H2. destruct H2 as (_ & Hz & H2). rewrite <- Hk in H2.
    assert (H : (x <? z) = true) by (apply ltb_klt; auto). congruence.
Qed.

Lemma eqb_ltb_r x y z : (x =? y) = true -> (z <? x) = (z <? y).
Proof.
  intros H. apply eqb_key in H. destruct H as (Hx & Hy & Hk).
  destruct (z <? x) eqn:H1, (z <? y) eqn:H2; try reflexivity.
  - apply ltb_klt in H1. destruct H1 as (Hz & _ & H1). rewrite Hk in H1.
    assert (H : (z <? y) = true) by (apply ltb_klt; auto). congruence.
  - apply ltb_klt in H2. destruct H2 as (Hz & _ & H2). rewrite <- Hk in H2.
    assert (H : (z <? x) = true) by (apply ltb_klt; auto). congruence.
Qed.

Lemma ltb_not_eqb x y : (x <? y) = true -> (x =? y) = false.
Proof.
  intros H. destruct (x =? y) eqn:He; [|reflexivity].
  rewrite (eqb_ltb_l _ _ y He), ltb_irrefl in H. discriminate.
Qed.

(** Without NaN, exactly one of [x < y], [x == y], [y < x] holds. *)
Lemma trichotomy x y :
  not_nan x -> not_nan y ->
  (x <? y) = true \/ (x =? y) = true \/ (y <? x) = true.
Proof.
  intros Hx Hy. destruct (klt_total (key x) (key y)) as [H|[H|H]].
  - left. apply ltb_klt. auto.
  - right; left. apply eqb_key. auto.
  - right; right. apply ltb_klt. auto.
Qed.

(** [m <= k] and [x < m] give [x < k]; [k <= m] and [m < x] give [k < x]. *)
Lemma below_le k m x :
  not_nan k -> not_nan m ->
  (k <? m) = false -> (x <? m) = true -> (x <? k) = true.
Proof.
  intros Hk Hm Hkm Hx. destruct (trichotomy k m Hk Hm) as [H|[H|H]].
  - congruence.
  - rewrite (eqb_ltb_r _ _ x H). exact Hx.
  - exact (ltb_trans _ _ _ Hx H).
Qed.

Lemma above_ge k m x :
  not_nan k -> not_nan m ->
  (m <? k) = false -> (m <? x) = true -> (k <? x) = true.
Proof.
  intros Hk Hm Hmk Hx. destruct (trichotomy k m Hk Hm) as [H|[H|H]].
  - exact (ltb_trans _ _ _ H Hx).
  - rewrite (eqb_ltb_l _ _ x H). exact Hx.
  - congruence.
Qed.

End FloatOrderFacts.

(* ------------------------------------------------------------------ *)
(** ** Sorting and bisection *)

Module SearchFacts.

Import FloatOrder FloatOrderFacts.
Local Open Scope float_scope.

Lemma insort_perm x l : Permutation (Py.insort x l) (x :: l).
Proof.
  induction l as [|y l IH]; simpl.
  - apply Permutation_refl.
  - destruct (x <? y).
    + apply Permutation_refl.
    + eapply perm_trans; [apply perm_skip, IH | apply perm_swap].
Qed.

Lemma insort_in x l z : In z (Py.insort x l) <-> z = x \/ In z l.
Proof.
  split; intros H.
  - apply (Permutation_in _ (insort_perm x l)) in H.
    destruct H; auto.
  - apply (Permutation_in _ (Permutation_sym (insort_perm x l))).
    destruct H; [left|right]; auto.
Qed.

(** Inserting a fresh key keeps a strictly increasing list strictly
    increasing. *)
Lemma insort_sorted x l :
  not_nan x -> Forall not_nan l ->
  (forall k, In k l -> fneq k x) ->
  StronglySorted flt l -> StronglySorted flt (Py.insort x l).
Proof.
  intros Hx Hl Hne Hs. induction Hs as [|y l Hs IH Hy]; simpl.
  - constructor; constructor.
  - inversion Hl as [|? ? Hny Hnl]; subst.
    destruct (x <? y) eqn:Hxy.
    + constructor; [constructor; assumption|].
      constructor; [exact Hxy|].
      rewrite Forall_forall in Hy |- *. intros z Hz.
      exact (ltb_trans _ _ _ Hxy (Hy z Hz)).
    + assert (Hyx : flt y x).
      { destruct (trichotomy y x Hny Hx) as [H|[H|H]].
        - exact H.
        - rewrite (Hne y (or_introl eq_refl)) in H. discriminate.
        - unfold flt in *. congruence. }
      constructor.
      * apply IH; [assumption|]. intros k Hk. apply Hne. right; exact Hk.
      * rewrite Forall_forall in Hy |- *. intros z Hz.
        apply insort_in in Hz. destruct Hz as [->|Hz]; auto.
Qed.

Lemma sorted_from_perm l acc :
  Permutation (fold_left (fun acc x => Py.insort x acc) l acc) (acc ++ l).
Proof.
  revert acc. induction l as [|x l IH]; intros acc; simpl.
  - rewrite app_nil_r. apply Permutation_refl.
  - eapply perm_trans; [apply IH|].
    eapply perm_trans; [apply Permutation_app_tail, insort_perm|].
    simpl. apply Permutation_middle.
Qed.

Lemma sorted_perm l : Permutation (Py.sorted l) l.
Proof. apply (sorted_from_perm l []). Qed.

Lemma sorted_in l z : In z (Py.sorted l) <-> In z l.
Proof.
  split; apply Permutation_in;
    [apply sorted_perm | apply Permutation_sym, sorted_perm].
Qed.

Lemma sorted_length l : List.length (Py.sorted l) = List.length l.
Proof. apply Permutation_length, sorted_perm. Qed.

Lemma sorted_from_sorted l : forall acc,
  Forall not_nan acc -> Forall not_nan l ->
  ForallOrdPairs fneq l ->
  (forall a b, In a acc -> In b l -> fneq a b) ->
  StronglySorted flt acc ->
  StronglySorted flt (fold_left (fun acc x => Py.insort x acc) l acc).
Proof.
  induction l as [|x l IH]; intros acc Hacc Hl Hd Hx Hs; simpl.
  - exact Hs.
  - inversion Hl as [|? ? Hnx Hnl]; subst.
    inversion Hd as [|? ? Hxl Hdl]; subst.
    apply IH.
    + rewrite Forall_forall in Hacc |- *. intros z Hz.
      apply insort_in in Hz. destruct Hz as [->|Hz]; auto.
    + exact Hnl.
    + exact Hdl.
    + intros a b Ha Hb. apply insort_in in Ha. destruct Ha as [->|Ha].
      * rewrite Forall_forall in Hxl. exact (Hxl b Hb).
      * apply Hx; [exact Ha | right; exact Hb].
    + apply insort_sorted; auto.
      intros k Hk. apply Hx; [exact Hk | left; reflexivity].
Qed.

(** Sorting distinct keys without NaN gives a strictly increasing list. *)
Lemma sorted_sorted l :
  Forall not_nan l -> ForallOrdPairs fneq l ->
  StronglySorted flt (Py.sorted l).
Proof.
  intros Hl Hd. apply sorted_from_sorted; auto.
  - intros a b [].
  - constructor.
Qed.

Lemma sorted_nth a : StronglySorted flt a ->
  forall j k, (j < k < List.length a)%nat -> flt (nth j a nan) (nth k a nan).
Proof.
  induction 1 as [|y l Hs IH Hy]; intros j k Hjk; simpl in *.
  - lia.
  - destruct k as [|k]; [lia|]. destruct j as [|j].
    + rewrite Forall_forall in Hy. apply Hy, nth_In. lia.
    + apply IH. lia.
Qed.

Lemma mid_bounds lo hi : (lo < hi -> lo <= (lo + hi) / 2 < hi)%nat.
Proof.
  intros H. split.
  - apply Nat.div_le_lower_bound; lia.
  - apply Nat.Div0.div_lt_upper_bound; lia.
Qed.

(** The loop keeps: everything left of [lo] is below [x], nothing from
    [hi] on is. *)
Lemma bisect_loop_spec a x : StronglySorted flt a ->
  forall lo hi,
  (lo <= hi <= List.length a)%nat ->
  (forall j, (j < lo)%nat -> (nth j a nan <? x) = true) ->
  (forall j, (hi <= j < List.length a)%nat -> (nth j a nan <? x) = false) ->
  let i := Py.bisect_loop a x lo hi in
  (lo <= i <= hi)%nat /\
  (forall j, (j < i)%nat -> (nth j a nan <? x) = true) /\
  (forall j, (i <= j < List.length a)%nat -> (nth j a nan <? x) = false).
Proof.
  intros Hs lo hi. funelim (Py.bisect_loop a x lo hi).
  - intros Hb Hlo Hhi. pose proof (proj1 (Nat.ltb_ge _ _) e) as Hge.
    repeat split; try lia; auto.
    intros j Hj. apply Hhi. lia.
  - intros Hb Hlo Hhi.
    pose proof (mid_bounds lo hi (proj1 (Nat.ltb_lt _ _) Hlt)) as Hm.
    match goal with
    | IH : StronglySorted _ _ -> _ |- _ =>
        destruct (IH Hs) as (Hi & Hbelow & Habove)
    end; [lia | | exact Hhi | ].
    + intros j Hj.
      destruct (Nat.eq_dec j ((lo + hi) / 2)) as [->|Hne]; [exact Heq|].
      refine (ltb_trans _ _ _ _ Heq). apply sorted_nth; [exact Hs | lia].
    + repeat split; try lia; auto.
  - intros Hb Hlo Hhi.
    pose proof (mid_bounds lo hi (proj1 (Nat.ltb_lt _ _) Hlt)) as Hm.
    match goal with
    | IH : StronglySorted _ _ -> _ |- _ =>
        destruct (IH Hs) as (Hi & Hbelow & Habove)
    end; [lia | exact Hlo | | ].
    + intros j Hj.
      destruct (Nat.eq_dec j ((lo + hi) / 2)) as [->|Hne]; [exact Heq|].
      destruct (nth j a nan <? x) eqn:Hjx; [|reflexivity].
      assert (Hmj : flt (nth ((lo + hi) / 2) a nan) (nth j a nan))
        by (apply sorted_nth; [exact Hs | lia]).
      rewrite (ltb_trans _ _ _ Hmj Hjx) in Heq. discriminate.
    + repeat split; try lia; auto.
Qed.

(** [bisect_left] on a strictly increasing list: the index that splits it
    into the keys below [x] and the keys not below [x]. *)
Lemma bisect_left_spec a x : StronglySorted flt a ->
  let i := Py.bisect_left a x in
  (i <= List.length a)%nat /\
  (forall j, (j < i)%nat -> (nth j a nan <? x) = true) /\
  (forall j, (i <= j < List.length a)%nat -> (nth j a nan <? x) = false).
Proof.
  intros Hs. unfold Py.bisect_left.
  destruct (bisect_loop_spec a x Hs 0 (List.length a)) as (Hi & Hb & Ha);
    [lia | intros; lia | intros; lia |].
  repeat split; [lia | exact Hb | exact Ha].
Qed.

End SearchFacts.

(* ------------------------------------------------------------------ *)
(** ** Dictionaries *)

Module DictFacts.

Import FloatOrder FloatOrderFacts.
Local Open Scope float_scope.

Section WithValues.
Context {V : Type}.
Implicit Types (d : Py.dict V) (k : float) (v : V).

Lemma dict_get_in d k v :
  Py.dict_get d k = Some v -> exists k', In (k', v) d /\ (k' =? k) = true.
Proof.
  induction d as [|[k0 v0] d IH]; simpl; [discriminate|].
  destruct (k0 =? k) eqn:H0; intros H.
  - injection H as <-. exists k0. auto.
  - destruct (IH H) as (k' & Hin & Hk). exists k'. auto.
Qed.

Lemma dict_get_none d k :
  Py.dict_get d k = None <->
  forall k', In k' (Py.dict_keys d) -> (k' =? k) = false.
Proof.
  induction d as [|[k0 v0] d IH]; simpl.
  - split; [intros _ k' [] | reflexivity].
  - destruct (k0 =? k) eqn:H0; split.
    + discriminate.
    + intros H. rewrite (H k0 (or_introl eq_refl)) in H0. discriminate.
    + intros H k' [<-|Hin]; [exact H0|]. apply IH; assumption.
    + intros H. apply IH. intros k' Hin. apply H. right; exact Hin.
Qed.

Lemma in_dict_keys d k v : In (k, v) d -> In k (Py.dict_keys d).
Proof. intros H. apply (in_map fst) in H. exact H. Qed.

(** With distinct keys, a stored pair is what its key (or any float that
    is [==] to it) looks up. *)
Lemma dict_get_stored d k k' v :
  Py.distinct_keys d -> In (k, v) d -> (k =? k') = true ->
  Py.dict_get d k' = Some v.
Proof.
  unfold Py.distinct_keys.
  induction d as [|[k0 v0] d IH]; simpl; intros Hd Hin Hk; [contradiction|].
  inversion Hd as [|? ? Hk0 Hd']; subst.
  destruct Hin as [Heq|Hin].
  - injection Heq as -> ->. rewrite Hk. reflexivity.
  - destruct (k0 =? k') eqn:H0.
    + rewrite Forall_forall in Hk0.
      pose proof (Hk0 k (in_dict_keys _ _ _ Hin)) as Hne. unfold fneq in Hne.
      rewrite eqb_sym in Hk.
      rewrite (eqb_trans _ _ _ H0 Hk) in Hne. discriminate.
    + apply IH; assumption.
Qed.

Lemma dict_set_keys_in d k v z :
  In z (Py.dict_keys (Py.dict_set d k v)) -> In z (Py.dict_keys d) \/ z = k.
Proof.
  induction d as [|[k0 v0] d IH]; simpl.
  - intros [<-|[]]. auto.
  - destruct (k0 =? k); simpl.
    + intros [<-|H]; auto.
    + intros [<-|H]; auto. destruct (IH H); auto.
Qed.

Lemma dict_set_distinct d k v :
  Py.distinct_keys d -> Py.distinct_keys (Py.dict_set d k v).
Proof.
  unfold Py.distinct_keys.
  induction d as [|[k0 v0] d IH]; simpl; intros Hd.
  - constructor; constructor.
  - inversion Hd as [|? ? Hk0 Hd']; subst.
    destruct (k0 =? k) eqn:H0; simpl.
    + exact Hd.
    + constructor; [|apply IH; exact Hd'].
      rewrite Forall_forall in Hk0 |- *. intros z Hz.
      destruct (dict_set_keys_in _ _ _ _ Hz) as [Hin| ->]; auto.
Qed.

End WithValues.

End DictFacts.

(* ------------------------------------------------------------------ *)
(** ** Loading a trajectory *)

Section Loading.

Context {E : Externals}.
Local Open Scope py_scope.
Local Open Scope float_scope.

Lemma length8 {A : Type} (l : list A) :
  List.length l = 8%nat -> exists a b c d e f g h, l = [a; b; c; d; e; f; g; h].
Proof.
  intros H.
  do 8 (destruct l as [|? l]; [discriminate|]).
  destruct l; [|discriminate]. repeat eexists.
Qed.

(** What [read_line] does on a line of eight fields. *)
Lemma read_line_fields trajectory line p0 p1 p2 p3 p4 p5 p6 p7 :
  Py.split (Py.strip line) = [p0; p1; p2; p3; p4; p5; p6; p7] ->
  read_line trajectory line =
    (timestamp <- float_ p0 ;;
     tx <- float_ p1 ;; ty <- float_ p2 ;; tz <- float_ p3 ;;
     qx <- float_ p4 ;; qy <- float_ p5 ;; qz <- float_ p6 ;;
     qw <- float_ p7 ;;
     pose <- create_transformation (tx, ty, tz) (qx, qy, qz, qw) ;;
     Ok (Py.dict_set trajectory timestamp pose)).
Proof.
  intros H. unfold read_line. rewrite H. reflexivity.
Qed.

Lemma read_line_skip trajectory line :
  n_fields line <> 8%nat -> read_line trajectory line = Ok trajectory.
Proof.
  unfold n_fields, read_line. intros H.
  apply Nat.eqb_neq in H. rewrite H. reflexivity.
Qed.

Lemma read_line_raise trajectory line e :
  read_line trajectory line = Raise e -> e = ValueError.
Proof.
  destruct (Nat.eq_dec (n_fields line) 8) as [H8|H8].
  - destruct (length8 _ H8) as (p0 & p1 & p2 & p3 & p4 & p5 & p6 & p7 & Hp).
    rewrite (read_line_fields _ _ _ _ _ _ _ _ _ _ Hp).
    unfold float_, create_transformation.
    destruct (py_float p0); simpl; [|congruence].
    destruct (py_float p1); simpl; [|congruence].
    destruct (py_float p2); simpl; [|congruence].
    destruct (py_float p3); simpl; [|congruence].
    destruct (py_float p4); simpl; [|congruence].
    destruct (py_float p5); simpl; [|congruence].
    destruct (py_float p6); simpl; [|congruence].
    destruct (py_float p7); simpl; [|congruence].
    destruct (quat_as_matrix _); simpl; congruence.
  - rewrite read_line_skip by assumption. discriminate.
Qed.

Lemma read_line_ok trajectory line d :
  read_line trajectory line = Ok d ->
  d = trajectory \/ exists k v, d = Py.dict_set trajectory k v.
Proof.
  destruct (Nat.eq_dec (n_fields line) 8) as [H8|H8].
  - destruct (length8 _ H8) as (p0 & p1 & p2 & p3 & p4 & p5 & p6 & p7 & Hp).
    rewrite (read_line_fields _ _ _ _ _ _ _ _ _ _ Hp).
    unfold float_, create_transformation.
    destruct (py_float p0); simpl; [|discriminate].
    destruct (py_float p1); simpl; [|discriminate].
    destruct (py_float p2); simpl; [|discriminate].
    destruct (py_float p3); simpl; [|discriminate].
    destruct (py_float p4); simpl; [|discriminate].
    destruct (py_float p5); simpl; [|discriminate].
    destruct (py_float p6); simpl; [|discriminate].
    destruct (py_float p7); simpl; [|discriminate].
    destruct (quat_as_matrix _); simpl; [|discriminate].
    intros H. injection H as <-. right. eauto.
  - rewrite read_line_skip by assumption. intros H. injection H as <-. auto.
Qed.

Lemma read_lines_raise f : forall trajectory e,
  read_lines trajectory f = Raise e -> e = ValueError.
Proof.
  induction f as [|line f IH]; simpl; intros trajectory e; [discriminate|].
  destruct (read_line trajectory line) eqn:Hl; simpl.
  - apply IH.
  - intros H. injection H as <-. exact (read_line_raise _ _ _ Hl).
Qed.

Lemma read_lines_distinct f : forall trajectory d,
  Py.distinct_keys trajectory ->
  read_lines trajectory f = Ok d -> Py.distinct_keys d.
Proof.
  induction f as [|line f IH]; simpl; intros trajectory d Hd.
  - intros H. injection H as <-. exact Hd.
  - destruct (read_line trajectory line) as [t'|] eqn:Hl; simpl; [|discriminate].
    apply IH. destruct (read_line_ok _ _ _ Hl) as [->|(k & v & ->)].
    + exact Hd.
    + apply DictFacts.dict_set_distinct, Hd.
Qed.

Lemma init_store_ok fs config trajectory_fp self :
  __init__ fs config trajectory_fp = Ok self -> store_ok self.
Proof.
  unfold __init__, read_tum_trajectory.
  destruct (fs trajectory_fp) as [f|]; simpl; [|discriminate].
  destruct (read_lines [] f) as [d|] eqn:Hr; simpl; [|discriminate].
  intros H. injection H as <-. split; simpl; [|reflexivity].
  eapply read_lines_distinct; [|exact Hr]. constructor.
Qed.

Lemma register_frame_store self frame timestamps out self' :
  register_frame self frame timestamps = Ok (out, self') ->
  _trajectory self' = _trajectory self /\
  _sorted_trajectory_times self' = _sorted_trajectory_times self.
Proof.
  unfold register_frame.
  destruct (Py.min timestamps); simpl; [|discriminate].
  destruct (Py.max timestamps); simpl; [|discriminate].
  destruct (_get_pose self _); simpl; [|discriminate].
  destruct (_get_pose self _); simpl; [|discriminate].
  destruct (linalg_inv _); simpl; [|discriminate].
  destruct (mapping_voxel_size _); [|discriminate].
  intros H. injection H as _ <-. auto.
Qed.

Lemma reachable_store_ok self : reachable self -> store_ok self.
Proof.
  induction 1 as [fs config fp self Hinit|self frame ts out self' _ IH Hreg].
  - exact (init_store_ok _ _ _ _ Hinit).
  - destruct (register_frame_store _ _ _ _ _ Hreg) as [Ht Hs].
    destruct IH as [Hd Hsorted]. unfold store_ok, stored_times.
    rewrite Ht, Hs. auto.
Qed.

End Loading.

(* ------------------------------------------------------------------ *)
(** ** Pose lookup *)

Section Lookup.

Context {E : Externals}.
Import FloatOrder FloatOrderFacts SearchFacts DictFacts.
Local Open Scope py_scope.
Local Open Scope float_scope.

Lemma getitem_nat {A : Type} (l : list A) (n : nat) (d : A) :
  (n < List.length l)%nat -> Py.getitem l (Z.of_nat n) = Ok (nth n l d).
Proof.
  intros H. unfold Py.getitem.
  destruct (Z.of_nat n <? 0)%Z eqn:H0; [apply Z.ltb_lt in H0; lia|].
  rewrite H0. simpl.
  destruct (Z.of_nat (List.length l) <=? Z.of_nat n)%Z eqn:H1;
    [apply Z.leb_le in H1; lia|].
  rewrite Nat2Z.id, (nth_error_nth' l d H). reflexivity.
Qed.

Lemma getitem_len {A : Type} (l : list A) :
  Py.getitem l (Z.of_nat (List.length l)) = Raise IndexError.
Proof.
  unfold Py.getitem.
  destruct (Z.of_nat (List.length l) <? 0)%Z eqn:H0;
    [apply Z.ltb_lt in H0; lia|].
  rewrite H0, Z.leb_refl. reflexivity.
Qed.

Lemma in_nth_nan (l : list float) (z : float) :
  In z l -> exists j, (j < List.length l)%nat /\ nth j l nan = z.
Proof. apply In_nth. Qed.

(** The sorted times of a reachable object without NaN: strictly
    increasing, and the same floats as the keys. *)
Lemma times_sorted self :
  reachable self -> times_not_nan self ->
  StronglySorted flt (_sorted_trajectory_times self) /\
  (forall z, In z (_sorted_trajectory_times self) <-> In z (stored_times self)).
Proof.
  intros Hr Hn. destruct (reachable_store_ok _ Hr) as [Hd ->]. split.
  - apply sorted_sorted; assumption.
  - intros z. apply sorted_in.
Qed.

Lemma stored_has_pose self k :
  In k (stored_times self) -> exists pose, In (k, pose) (_trajectory self).
Proof.
  unfold stored_times, Py.dict_keys. intros H.
  apply in_map_iff in H. destruct H as ([k' v] & Hk & Hin).
  simpl in Hk. subst k'. eauto.
Qed.

Lemma getitem_stored self k pose :
  reachable self -> In (k, pose) (_trajectory self) -> not_nan k ->
  Py.dict_getitem (_trajectory self) k = Ok pose.
Proof.
  intros Hr Hin Hk. destruct (reachable_store_ok _ Hr) as [Hd _].
  unfold Py.dict_getitem.
  rewrite (dict_get_stored _ k k pose Hd Hin Hk). reflexivity.
Qed.

Lemma not_stored_contains self stamp :
  not_stored self stamp -> Py.dict_contains (_trajectory self) stamp = false.
Proof.
  intros H. unfold Py.dict_contains.
  assert (Hg : Py.dict_get (_trajectory self) stamp = None)
    by (apply dict_get_none; exact H).
  rewrite Hg. reflexivity.
Qed.

(** A query strictly inside the stored range that is no stored timestamp:
    [bisect_left] lands between two neighbours that enclose it. *)
Lemma bracket self stamp lo hi :
  reachable self -> times_not_nan self -> not_stored self stamp ->
  smallest (stored_times self) lo -> largest (stored_times self) hi ->
  (lo <? stamp) = true -> (stamp <? hi) = true ->
  let a := _sorted_trajectory_times self in
  let i := Py.bisect_left a stamp in
  (0 < i < List.length a)%nat /\
  In (nth (i - 1) a nan) (stored_times self) /\
  In (nth i a nan) (stored_times self) /\
  (nth (i - 1) a nan <? stamp) = true /\
  (stamp <? nth i a nan) = true /\
  (forall k, In k (stored_times self) ->
     (nth (i - 1) a nan <? k) && (k <? nth i a nan) = false) /\
  (stamp <? nth 0 a nan) = false.
Proof.
  intros Hr Hn Hns [Hlo _] [Hhi _] Hlos Hshi a i.
  destruct (times_sorted self Hr Hn) as [Hs Hin]. fold a in Hs, Hin.
  destruct (bisect_left_spec a stamp Hs) as (Hi & Hbelow & Habove).
  fold i in Hi, Hbelow, Habove.
  assert (H0 : (0 < i)%nat).
  { apply Hin, in_nth_nan in Hlo. destruct Hlo as (j & Hj & Hjlo).
    destruct (Nat.lt_ge_cases j i) as [Hlt|Hge]; [lia|].
    rewrite <- Hjlo, Habove in Hlos by lia. discriminate. }
  assert (H1 : (i < List.length a)%nat).
  { apply Hin, in_nth_nan in Hhi. destruct Hhi as (j & Hj & Hjhi).
    destruct (Nat.lt_ge_cases j i) as [Hlt|Hge]; [|lia].
    apply ltb_asym in Hshi. rewrite <- Hjhi, Hbelow in Hshi by lia.
    discriminate. }
  assert (Hi1 : In (nth (i - 1) a nan) (stored_times self))
    by (apply Hin, nth_In; lia).
  assert (Hi2 : In (nth i a nan) (stored_times self))
    by (apply Hin, nth_In; lia).
  assert (Hb : (nth (i - 1) a nan <? stamp) = true) by (apply Hbelow; lia).
  repeat split; try assumption; try lia.
  - unfold times_not_nan in Hn. rewrite Forall_forall in Hn.
    destruct (trichotomy stamp (nth i a nan)) as [H|[H|H]].
    + exact (ltb_not_nan_r _ _ Hlos).
    + apply Hn, Hi2.
    + exact H.
    + rewrite eqb_sym, (Hns _ Hi2) in H. discriminate.
    + rewrite Habove in H by lia. discriminate.
  - intros k Hk. apply Hin, in_nth_nan in Hk. destruct Hk as (j & Hj & <-).
    destruct (Nat.lt_ge_cases j i) as [Hlt|Hge].
    + assert (H : (nth (i - 1) a nan <? nth j a nan) = false).
      { destruct (Nat.eq_dec j (i - 1)) as [->|Hne]; [apply ltb_irrefl|].
        apply ltb_asym, sorted_nth; [exact Hs | lia]. }
      rewrite H. reflexivity.
    + assert (H : (nth j a nan <? nth i a nan) = false).
      { destruct (Nat.eq_dec j i) as [->|Hne]; [apply ltb_irrefl|].
        apply ltb_asym, sorted_nth; [exact Hs | lia]. }
      rewrite H. apply andb_false_r.
  - apply ltb_asym, Hbelow. exact H0.
Qed.

End Lookup.

(* ------------------------------------------------------------------ *)
(** ** The lookup, case by case *)

Section LookupCases.

Context {E : Externals}.
Import FloatOrder FloatOrderFacts SearchFacts DictFacts.
Local Open Scope py_scope.
Local Open Scope float_scope.

(** The branch of [_get_pose] taken when [stamp] is no key and is not
    below the first time. *)
Lemma get_pose_search self stamp first :
  Py.dict_contains (_trajectory self) stamp = false ->
  Py.getitem (_sorted_trajectory_times self) 0 = Ok first ->
  (stamp <? first) = false ->
  _get_pose self stamp =
    (let upper_idx :=
       Z.of_nat (Py.bisect_left (_sorted_trajectory_times self) stamp) in
     let lower_idx := (upper_idx - 1)%Z in
     assert (lower_idx >=? 0)%Z ;;
     t1 <- Py.getitem (_sorted_trajectory_times self) lower_idx ;;
     t2 <- Py.getitem (_sorted_trajectory_times self) upper_idx ;;
     assert ((t1 <? stamp) && (stamp <? t2)) ;;
     pose1 <- Py.dict_getitem (_trajectory self) t1 ;;
     pose2 <- Py.dict_getitem (_trajectory self) t2 ;;
     Ok (_interpolate_se3d ((stamp - t1) / (t2 - t1)) pose1 pose2)).
Proof.
  intros Hc Hf Hlt. unfold _get_pose. rewrite Hc, Hf. simpl.
  rewrite Hlt. reflexivity.
Qed.

(** Running [_get_pose] once [bisect_left] is known to land on a pair of
    neighbours that enclose [stamp]. *)
Lemma get_pose_at_bracket self stamp pose1 pose2 :
  let a := _sorted_trajectory_times self in
  let i := Py.bisect_left a stamp in
  reachable self -> not_stored self stamp ->
  (0 < i < List.length a)%nat ->
  (stamp <? nth 0 a nan) = false ->
  (nth (i - 1) a nan <? stamp) = true -> (stamp <? nth i a nan) = true ->
  In (nth (i - 1) a nan, pose1) (_trajectory self) ->
  In (nth i a nan, pose2) (_trajectory self) ->
  _get_pose self stamp =
    Ok (_interpolate_se3d
          ((stamp - nth (i - 1) a nan) / (nth i a nan - nth (i - 1) a nan))
          pose1 pose2).
Proof.
  intros a i Hr Hns Hi Hfirst Ht1 Ht2 Hp1 Hp2.
  rewrite (get_pose_search self stamp (nth 0 a nan)).
  - cbv zeta. fold a. fold i.
    assert (Hge : (Z.of_nat i - 1 >=? 0)%Z = true) by (apply Z.geb_le; lia).
    rewrite Hge.
    replace (Z.of_nat i - 1)%Z with (Z.of_nat (i - 1)) by lia.
    rewrite (getitem_nat a (i - 1) nan) by lia.
    rewrite (getitem_nat a i nan) by lia. simpl.
    rewrite Ht1, Ht2. simpl.
    rewrite (getitem_stored self _ pose1 Hr Hp1 (ltb_not_nan_l _ _ Ht1)).
    rewrite (getitem_stored self _ pose2 Hr Hp2 (ltb_not_nan_r _ _ Ht2)).
    reflexivity.
  - apply not_stored_contains, Hns.
  - fold a. change 0%Z with (Z.of_nat 0). apply getitem_nat. lia.
  - exact Hfirst.
Qed.

(** C1: a query that is no stored timestamp and lies strictly between the
    smallest and the largest stored timestamps is answered by
    interpolation.  [bisect_left] over the sorted times finds the
    neighbours [t1 < stamp < t2] (no stored timestamp lies strictly
    between them), and the result is the interpolated pose between the
    poses stored at [t1] and [t2] at [t = (stamp - t1) / (t2 - t1)]. *)
Theorem get_pose_interpolates self stamp lo hi :
  reachable self -> times_not_nan self -> not_stored self stamp ->
  smallest (stored_times self) lo -> largest (stored_times self) hi ->
  (lo <? stamp) = true -> (stamp <? hi) = true ->
  exists t1 t2 pose1 pose2,
    let a := _sorted_trajectory_times self in
    let i := Py.bisect_left a stamp in
    nth_error a (i - 1) = Some t1 /\ nth_error a i = Some t2 /\
    (0 < i)%nat /\
    In (t1, pose1) (_trajectory self) /\ In (t2, pose2) (_trajectory self) /\
    (t1 <? stamp) = true /\ (stamp <? t2) = true /\
    (forall k, In k (stored_times self) -> (t1 <? k) && (k <? t2) = false) /\
    _get_pose self stamp =
      Ok (_interpolate_se3d ((stamp - t1) / (t2 - t1)) pose1 pose2).
Proof.
  intros Hr Hn Hns Hlo Hhi Hlos Hshi.
  destruct (bracket self stamp lo hi Hr Hn Hns Hlo Hhi Hlos Hshi)
    as (Hi & Hin1 & Hin2 & Ht1 & Ht2 & Hbetween & Hfirst).
  set (a := _sorted_trajectory_times self) in *.
  set (i := Py.bisect_left a stamp) in *.
  destruct (stored_has_pose self _ Hin1) as [pose1 Hp1].
  destruct (stored_has_pose self _ Hin2) as [pose2 Hp2].
  exists (nth (i - 1) a nan), (nth i a nan), pose1, pose2.
  cbv zeta. fold a. fold i.
  repeat split; try assumption; try lia.
  - apply nth_error_nth'. lia.
  - apply nth_error_nth'. lia.
  - apply (get_pose_at_bracket self stamp pose1 pose2); assumption.
Qed.

(** C3: under the same precondition the two assertions of the bracket
    search hold: the lower index is not negative, the two reads succeed
    and give [t1 < stamp < t2]; the lookup does not end in an
    [AssertionError]. *)
Theorem bracket_assertions_hold self stamp lo hi :
  reachable self -> times_not_nan self -> not_stored self stamp ->
  smallest (stored_times self) lo -> largest (stored_times self) hi ->
  (lo <? stamp) = true -> (stamp <? hi) = true ->
  let a := _sorted_trajectory_times self in
  let upper_idx := Z.of_nat (Py.bisect_left a stamp) in
  let lower_idx := (upper_idx - 1)%Z in
  (lower_idx >=? 0)%Z = true /\
  (exists t1 t2,
     Py.getitem a lower_idx = Ok t1 /\ Py.getitem a upper_idx = Ok t2 /\
     (t1 <? stamp) && (stamp <? t2) = true) /\
  _get_pose self stamp <> Raise AssertionError.
Proof.
  intros Hr Hn Hns Hlo Hhi Hlos Hshi a upper_idx lower_idx.
  destruct (bracket self stamp lo hi Hr Hn Hns Hlo Hhi Hlos Hshi)
    as (Hi & Hin1 & Hin2 & Ht1 & Ht2 & _ & Hfirst).
  fold a in Hi, Hin1, Hin2, Ht1, Ht2, Hfirst.
  set (i := Py.bisect_left a stamp) in *.
  split; [|split].
  - apply Z.geb_le. unfold lower_idx, upper_idx. lia.
  - exists (nth (i - 1) a nan), (nth i a nan). repeat split.
    + unfold lower_idx, upper_idx.
      replace (Z.of_nat i - 1)%Z with (Z.of_nat (i - 1)) by lia.
      apply getitem_nat. lia.
    + apply getitem_nat. lia.
    + rewrite Ht1, Ht2. reflexivity.
  - destruct (stored_has_pose self _ Hin1) as [pose1 Hp1].
    destruct (stored_has_pose self _ Hin2) as [pose2 Hp2].
    rewrite (get_pose_at_bracket self stamp pose1 pose2); try assumption.
    discriminate.
Qed.

(** C4: looking up a stored timestamp returns the pose stored with it,
    as it is.  [stamp == k] is how the dict finds the key; for a stored
    timestamp that is a number, [k] itself is such a [stamp]. *)
Theorem get_pose_exact self k pose stamp :
  reachable self -> In (k, pose) (_trajectory self) ->
  (k =? stamp) = true ->
  _get_pose self stamp = Ok pose.
Proof.
  intros Hr Hin Hk. destruct (reachable_store_ok _ Hr) as [Hd _].
  unfold _get_pose, Py.dict_contains, Py.dict_getitem.
  rewrite (dict_get_stored _ k stamp pose Hd Hin Hk). reflexivity.
Qed.

(** C5: a query strictly below the smallest stored timestamp returns the
    identity, without an error and without interpolation. *)
Theorem get_pose_before_first self stamp m :
  reachable self -> times_not_nan self ->
  smallest (stored_times self) m -> (stamp <? m) = true ->
  _get_pose self stamp = Ok eye4.
Proof.
  intros Hr Hn [Hm Hmin] Hlt.
  assert (Hnn : forall k, In k (stored_times self) -> not_nan k)
    by (apply Forall_forall; exact Hn).
  assert (Hbelow : forall k, In k (stored_times self) -> (stamp <? k) = true).
  { intros k Hk. apply (below_le k m); auto. }
  assert (Hns : not_stored self stamp).
  { intros k Hk. rewrite eqb_sym. apply ltb_not_eqb, Hbelow, Hk. }
  destruct (reachable_store_ok _ Hr) as [_ Hsorted].
  assert (Hlen : (0 < List.length (_sorted_trajectory_times self))%nat).
  { rewrite Hsorted, sorted_length.
    destruct (stored_times self); [contradiction | simpl; lia]. }
  unfold _get_pose. rewrite (not_stored_contains _ _ Hns).
  change 0%Z with (Z.of_nat 0).
  rewrite (getitem_nat _ 0 nan Hlen). simpl.
  rewrite Hbelow; [reflexivity|].
  rewrite <- (sorted_in (stored_times self)), <- Hsorted.
  apply nth_In, Hlen.
Qed.

(** C9: a query strictly above the largest stored timestamp makes
    [bisect_left] return the length of the list; the lower read succeeds,
    the upper read is out of range, and the lookup ends in an
    [IndexError]. *)
Theorem get_pose_after_last self stamp m :
  reachable self -> times_not_nan self ->
  largest (stored_times self) m -> (m <? stamp) = true ->
  let a := _sorted_trajectory_times self in
  not_stored self stamp /\
  Py.bisect_left a stamp = List.length a /\
  Py.getitem a (Z.of_nat (Py.bisect_left a stamp)) = Raise IndexError /\
  _get_pose self stamp = Raise IndexError.
Proof.
  intros Hr Hn [Hm Hmax] Hlt a.
  assert (Hnn : forall k, In k (stored_times self) -> not_nan k)
    by (apply Forall_forall; exact Hn).
  assert (Habove : forall k, In k (stored_times self) -> (k <? stamp) = true).
  { intros k Hk. apply (above_ge k m); auto. }
  assert (Hns : not_stored self stamp).
  { intros k Hk. apply ltb_not_eqb, Habove, Hk. }
  destruct (times_sorted self Hr Hn) as [Hs Hin]. fold a in Hs, Hin.
  destruct (bisect_left_spec a stamp Hs) as (Hi & _ & Hab).
  set (i := Py.bisect_left a stamp) in *.
  assert (Hlen : (0 < List.length a)%nat).
  { apply Hin in Hm. destruct a; [contradiction | simpl; lia]. }
  assert (Heq : i = List.length a).
  { destruct (Nat.lt_ge_cases i (List.length a)) as [Hl|Hg]; [|lia].
    assert (Hx : (nth i a nan <? stamp) = true)
      by (apply Habove, Hin, nth_In, Hl).
    rewrite Hab in Hx by lia. discriminate. }
  split; [exact Hns|]. split; [exact Heq|]. split.
  - rewrite Heq. apply getitem_len.
  - rewrite (get_pose_search self stamp (nth 0 a nan)).
    + cbv zeta. fold a. fold i. rewrite Heq.
      assert (Hge : (Z.of_nat (List.length a) - 1 >=? 0)%Z = true)
        by (apply Z.geb_le; lia).
      rewrite Hge.
      replace (Z.of_nat (List.length a) - 1)%Z
        with (Z.of_nat (List.length a - 1)) by lia.
      rewrite (getitem_nat a (List.length a - 1) nan) by lia.
      rewrite getitem_len. reflexivity.
    + apply not_stored_contains, Hns.
    + fold a. change 0%Z with (Z.of_nat 0). apply getitem_nat, Hlen.
    + apply ltb_asym, Habove, Hin, nth_In, Hlen.
Qed.

End LookupCases.

(* ------------------------------------------------------------------ *)
(** ** Loading: which files load, and what *)

Section LoadCases.

Context {E : Externals}.
Import FloatOrder.
Local Open Scope py_scope.
Local Open Scope float_scope.

Lemma read_line_well_formed trajectory line timestamp pose :
  well_formed line timestamp pose ->
  read_line trajectory line = Ok (Py.dict_set trajectory timestamp pose).
Proof.
  intros (p0 & p1 & p2 & p3 & p4 & p5 & p6 & p7 & tx & ty & tz & qx & qy
          & qz & qw & r & Hp & H0 & H1 & H2 & H3 & H4 & H5 & H6 & H7 & Hq
          & ->).
  rewrite (read_line_fields _ _ _ _ _ _ _ _ _ _ Hp).
  unfold float_, create_transformation.
  rewrite H0, H1, H2, H3, H4, H5, H6, H7. simpl. rewrite Hq. reflexivity.
Qed.

Lemma read_lines_filter f : forall trajectory,
  read_lines trajectory f =
  read_lines trajectory (filter (fun l => (n_fields l =? 8)%nat) f).
Proof.
  induction f as [|line f IH]; intros trajectory; simpl; [reflexivity|].
  destruct (n_fields line =? 8)%nat eqn:H8; simpl.
  - destruct (read_line trajectory line); simpl; auto.
  - apply Nat.eqb_neq in H8. rewrite (read_line_skip _ _ H8). simpl. apply IH.
Qed.

Lemma read_lines_no_sample f : forall trajectory,
  Forall (fun line => n_fields line <> 8%nat) f ->
  read_lines trajectory f = Ok trajectory.
Proof.
  induction f as [|line f IH]; intros trajectory Hf; simpl; [reflexivity|].
  inversion Hf as [|? ? Hl Hf']; subst.
  rewrite (read_line_skip _ _ Hl). simpl. apply IH, Hf'.
Qed.

Lemma read_lines_raise_at f line :
  In line f ->
  (forall trajectory, read_line trajectory line = Raise ValueError) ->
  forall trajectory, read_lines trajectory f = Raise ValueError.
Proof.
  intros Hin Hline. induction f as [|l f IH]; [contradiction|].
  intros trajectory. simpl.
  destruct (read_line trajectory l) as [t'|e] eqn:Hl; simpl.
  - destruct Hin as [->|Hin]; [rewrite Hline in Hl; discriminate|].
    apply IH, Hin.
  - rewrite (read_line_raise _ _ _ Hl). reflexivity.
Qed.

(** C8: a line whose field count is not 8 is skipped: it leaves the
    trajectory as it is and raises nothing, so a file loads as the file
    without these lines does.  A file of one well-formed line and one
    line of five fields, in either order, loads exactly the one sample. *)
Theorem wrong_field_count_skipped fs trajectory_fp f :
  fs trajectory_fp = Some f ->
  (forall trajectory line,
     In line f -> n_fields line <> 8%nat ->
     read_line trajectory line = Ok trajectory) /\
  read_tum_trajectory fs trajectory_fp =
    read_lines [] (filter (fun l => (n_fields l =? 8)%nat) f) /\
  (forall good bad timestamp pose,
     well_formed good timestamp pose -> n_fields bad = 5%nat ->
     f = [good; bad] \/ f = [bad; good] ->
     read_tum_trajectory fs trajectory_fp = Ok [(timestamp, pose)]).
Proof.
  intros Hfs. unfold read_tum_trajectory. rewrite Hfs.
  split; [|split].
  - intros trajectory line _ H8. apply read_line_skip, H8.
  - apply read_lines_filter.
  - intros good bad timestamp pose Hgood Hbad Hf.
    assert (H8 : n_fields bad <> 8%nat) by (rewrite Hbad; discriminate).
    destruct Hf as [->| ->]; simpl.
    + rewrite (read_line_well_formed _ _ _ _ Hgood). simpl.
      rewrite (read_line_skip _ _ H8). reflexivity.
    + rewrite (read_line_skip _ _ H8). simpl.
      rewrite (read_line_well_formed _ _ _ _ Hgood). reflexivity.
Qed.

(** C10: a line of eight fields one of which does not read as a number
    is not skipped: reading it raises [ValueError], and so does loading
    any file that holds such a line. *)
Theorem non_numeric_field_raises fs config trajectory_fp f line field :
  fs trajectory_fp = Some f -> In line f ->
  n_fields line = 8%nat ->
  In field (Py.split (Py.strip line)) -> py_float field = None ->
  (forall trajectory, read_line trajectory line = Raise ValueError) /\
  read_tum_trajectory fs trajectory_fp = Raise ValueError /\
  __init__ fs config trajectory_fp = Raise ValueError.
Proof.
  intros Hfs Hin H8 Hfield Hnone.
  assert (Hline : forall trajectory, read_line trajectory line = Raise ValueError).
  { intros trajectory.
    destruct (length8 _ H8) as (p0 & p1 & p2 & p3 & p4 & p5 & p6 & p7 & Hp).
    rewrite (read_line_fields _ _ _ _ _ _ _ _ _ _ Hp).
    rewrite Hp in Hfield. unfold float_.
    destruct (py_float p0) eqn:H0; simpl; [|reflexivity].
    destruct (py_float p1) eqn:H1; simpl; [|reflexivity].
    destruct (py_float p2) eqn:H2; simpl; [|reflexivity].
    destruct (py_float p3) eqn:H3; simpl; [|reflexivity].
    destruct (py_float p4) eqn:H4; simpl; [|reflexivity].
    destruct (py_float p5) eqn:H5; simpl; [|reflexivity].
    destruct (py_float p6) eqn:H6; simpl; [|reflexivity].
    destruct (py_float p7) eqn:H7; simpl; [|reflexivity].
    simpl in Hfield.
    repeat (destruct Hfield as [<-|Hfield]; [congruence|]).
    contradiction. }
  assert (Hread : read_tum_trajectory fs trajectory_fp = Raise ValueError).
  { unfold read_tum_trajectory. rewrite Hfs.
    apply (read_lines_raise_at f line Hin Hline). }
  split; [exact Hline|]. split; [exact Hread|].
  unfold __init__. rewrite Hread. reflexivity.
Qed.

(** C2, as the code has it: loading a path that does not exist fails with
    an [AssertionError].  Loading a file without any line of eight fields
    does not fail: it builds an object with an empty trajectory, on
    which every later lookup raises [IndexError]. *)
Theorem load_missing_or_no_sample fs config trajectory_fp :
  (fs trajectory_fp = None ->
   read_tum_trajectory fs trajectory_fp = Raise AssertionError /\
   __init__ fs config trajectory_fp = Raise AssertionError) /\
  (forall f,
     fs trajectory_fp = Some f ->
     Forall (fun line => n_fields line <> 8%nat) f ->
     exists self,
       __init__ fs config trajectory_fp = Ok self /\
       _trajectory self = [] /\ _sorted_trajectory_times self = [] /\
       forall stamp, _get_pose self stamp = Raise IndexError).
Proof.
  split.
  - intros Hfs. unfold __init__, read_tum_trajectory. rewrite Hfs. auto.
  - intros f Hfs Hf. unfold __init__, read_tum_trajectory. rewrite Hfs.
    rewrite (read_lines_no_sample f [] Hf). simpl.
    eexists. split; [reflexivity|]. simpl. repeat split.
Qed.

End LoadCases.

(* ------------------------------------------------------------------ *)
(** ** Registering a frame *)

Module MinMaxFacts.

Import FloatOrder FloatOrderFacts.
Local Open Scope float_scope.

Lemma fold_min_in r : forall x,
  In (fold_left Py.keep_min r x) (x :: r).
Proof.
  induction r as [|y r IH]; intros x; simpl; [auto|].
  destruct (IH (Py.keep_min x y)) as [H|H]; [|auto].
  unfold Py.keep_min in H at 1. destruct (y <? x); auto.
Qed.

Lemma fold_max_in r : forall x,
  In (fold_left Py.keep_max r x) (x :: r).
Proof.
  induction r as [|y r IH]; intros x; simpl; [auto|].
  destruct (IH (Py.keep_max x y)) as [H|H]; [|auto].
  unfold Py.keep_max in H at 1. destruct (x <? y); auto.
Qed.

Lemma fold_min_lower r : forall x,
  Forall not_nan (x :: r) ->
  forall z, In z (x :: r) -> (z <? fold_left Py.keep_min r x) = false.
Proof.
  induction r as [|y r IH]; intros x Hn z Hz; simpl.
  - destruct Hz as [<-|[]]. apply ltb_irrefl.
  - inversion Hn as [|? ? Hx Hn']; subst.
    inversion Hn' as [|? ? Hy Hr]; subst.
    set (x' := Py.keep_min x y).
    assert (Hx' : not_nan x') by (unfold x', Py.keep_min; destruct (y <? x); auto).
    assert (Hn2 : Forall not_nan (x' :: r)) by (constructor; auto).
    set (m := fold_left Py.keep_min r x').
    assert (Hm : not_nan m).
    { rewrite Forall_forall in Hn2. apply Hn2, fold_min_in. }
    assert (Hxm : (x' <? m) = false) by (apply (IH x' Hn2); left; reflexivity).
    destruct Hz as [<-|[<-|Hz]].
    + destruct (x <? m) eqn:H; [|reflexivity].
      pose proof (below_le x' m x Hx' Hm Hxm H) as Hc.
      unfold x', Py.keep_min in Hc. destruct (y <? x) eqn:Hyx.
      * rewrite (ltb_asym _ _ Hyx) in Hc. discriminate.
      * rewrite ltb_irrefl in Hc. discriminate.
    + destruct (y <? m) eqn:H; [|reflexivity].
      pose proof (below_le x' m y Hx' Hm Hxm H) as Hc.
      unfold x', Py.keep_min in Hc. destruct (y <? x) eqn:Hyx.
      * rewrite ltb_irrefl in Hc. discriminate.
      * congruence.
    + apply (IH x' Hn2). right; exact Hz.
Qed.

Lemma fold_max_upper r : forall x,
  Forall not_nan (x :: r) ->
  forall z, In z (x :: r) -> (fold_left Py.keep_max r x <? z) = false.
Proof.
  induction r as [|y r IH]; intros x Hn z Hz; simpl.
  - destruct Hz as [<-|[]]. apply ltb_irrefl.
  - inversion Hn as [|? ? Hx Hn']; subst.
    inversion Hn' as [|? ? Hy Hr]; subst.
    set (x' := Py.keep_max x y).
    assert (Hx' : not_nan x') by (unfold x', Py.keep_max; destruct (x <? y); auto).
    assert (Hn2 : Forall not_nan (x' :: r)) by (constructor; auto).
    set (m := fold_left Py.keep_max r x').
    assert (Hm : not_nan m).
    { rewrite Forall_forall in Hn2. apply Hn2, fold_max_in. }
    assert (Hxm : (m <? x') = false) by (apply (IH x' Hn2); left; reflexivity).
    destruct Hz as [<-|[<-|Hz]].
    + destruct (m <? x) eqn:H; [|reflexivity].
      pose proof (above_ge x' m x Hx' Hm Hxm H) as Hc.
      unfold x', Py.keep_max in Hc. destruct (x <? y) eqn:Hxy.
      * rewrite (ltb_asym _ _ Hxy) in Hc. discriminate.
      * rewrite ltb_irrefl in Hc. discriminate.
    + destruct (m <? y) eqn:H; [|reflexivity].
      pose proof (above_ge x' m y Hx' Hm Hxm H) as Hc.
      unfold x', Py.keep_max in Hc. destruct (x <? y) eqn:Hxy.
      * rewrite ltb_irrefl in Hc. discriminate.
      * congruence.
    + apply (IH x' Hn2). right; exact Hz.
Qed.

(** [min] and [max] of a non-empty list return one of its elements; if
    the list has no NaN, no element is below the first or above the
    second. *)
Lemma min_max_spec l :
  l <> [] ->
  exists lo hi,
    Py.min l = Ok lo /\ Py.max l = Ok hi /\ In lo l /\ In hi l /\
    (Forall not_nan l ->
     forall x, In x l -> (x <? lo) = false /\ (hi <? x) = false).
Proof.
  destruct l as [|x r]; [congruence|]. intros _.
  exists (fold_left Py.keep_min r x), (fold_left Py.keep_max r x).
  repeat split.
  - apply fold_min_in.
  - apply fold_max_in.
  - apply fold_min_lower; assumption.
  - apply fold_max_upper; assumption.
Qed.

End MinMaxFacts.

Section RegisterFrame.

Context {E : Externals}.
Import FloatOrder.
Local Open Scope py_scope.
Local Open Scope float_scope.

(** C6: for a non-empty sequence of timestamps, [t_min] and [t_max] are
    what [min] and [max] return (elements of the sequence; a lower and an
    upper bound of it when it has no NaN).  When both lookups succeed
    (and the inverse and the voxel size exist), [register_frame] deskews
    with, and advances by, the motion delta
    [inv(lookup(t_min)) @ lookup(t_max)]. *)
Theorem register_frame_motion_delta self frame timestamps :
  timestamps <> [] ->
  exists t_min t_max,
    Py.min timestamps = Ok t_min /\ Py.max timestamps = Ok t_max /\
    In t_min timestamps /\ In t_max timestamps /\
    (Forall not_nan timestamps ->
     forall x, In x timestamps ->
       (x <? t_min) = false /\ (t_max <? x) = false) /\
    forall pose_min pose_max inv_min voxel_size,
      _get_pose self t_min = Ok pose_min ->
      _get_pose self t_max = Ok pose_max ->
      linalg_inv pose_min = Some inv_min ->
      mapping_voxel_size (config self) = Some voxel_size ->
      let motion_delta := matmul inv_min pose_max in
      let deskewed_frame :=
        preprocess (preprocessor self) frame timestamps motion_delta in
      register_frame self frame timestamps =
        Ok ((deskewed_frame, None),
            advanced self voxel_size deskewed_frame motion_delta).
Proof.
  intros Hne.
  destruct (MinMaxFacts.min_max_spec timestamps Hne)
    as (t_min & t_max & Hmin & Hmax & Hin1 & Hin2 & Hbounds).
  exists t_min, t_max.
  split; [exact Hmin|]. split; [exact Hmax|].
  split; [exact Hin1|]. split; [exact Hin2|]. split; [exact Hbounds|].
  intros pose_min pose_max inv_min voxel_size Hp1 Hp2 Hinv Hv.
  cbv zeta. unfold register_frame.
  rewrite Hmin, Hmax. simpl. rewrite Hp1, Hp2. simpl.
  rewrite Hinv. simpl. rewrite Hv. reflexivity.
Qed.

(** C7: a call of [register_frame] that returns has composed the previous
    [last_pose] on the right with the frame's motion delta; [last_pose]
    after the call is that new pose, the map was updated at that pose,
    and the returned pair is the deskewed frame and [None]. *)
Theorem register_frame_advances self frame timestamps out self' :
  register_frame self frame timestamps = Ok (out, self') ->
  exists t_min t_max pose_min pose_max inv_min voxel_size,
    Py.min timestamps = Ok t_min /\ Py.max timestamps = Ok t_max /\
    _get_pose self t_min = Ok pose_min /\
    _get_pose self t_max = Ok pose_max /\
    linalg_inv pose_min = Some inv_min /\
    mapping_voxel_size (config self) = Some voxel_size /\
    let motion_delta := matmul inv_min pose_max in
    let new_pose := matmul (last_pose self) motion_delta in
    last_pose self' = new_pose /\
    local_map self' =
      map_update (local_map self)
        (voxel_down_sample (fst out) (voxel_size * 0.5)) new_pose /\
    fst out = preprocess (preprocessor self) frame timestamps motion_delta /\
    snd out = None /\
    _trajectory self' = _trajectory self /\
    _sorted_trajectory_times self' = _sorted_trajectory_times self /\
    config self' = config self.
Proof.
  unfold register_frame.
  destruct (Py.min timestamps) as [t_min|] eqn:Hmin; simpl; [|discriminate].
  destruct (Py.max timestamps) as [t_max|] eqn:Hmax; simpl; [|discriminate].
  destruct (_get_pose self t_min) as [pose_min|] eqn:Hp1; simpl; [|discriminate].
  destruct (_get_pose self t_max) as [pose_max|] eqn:Hp2; simpl; [|discriminate].
  destruct (linalg_inv pose_min) as [inv_min|] eqn:Hinv; simpl; [|discriminate].
  destruct (mapping_voxel_size (config self)) as [voxel_size|] eqn:Hv;
    [|discriminate].
  intros H. injection H as <- <-.
  exists t_min, t_max, pose_min, pose_max, inv_min, voxel_size.
  simpl. repeat split; assumption.
Qed.

End RegisterFrame.

(* ------------------------------------------------------------------ *)
(** ** The theorems at work on the small instance *)

Section Instances.

Import FloatOrder.
Local Open Scope float_scope.

Lemma simple_reachable : reachable Simple.odometry.
Proof.
  apply (reach_init (E := Simple.externals) Simple.fs Simple.cfg "traj.txt"%string).
  vm_compute. reflexivity.
Qed.

Lemma simple_not_nan : times_not_nan Simple.odometry.
Proof. repeat constructor. Qed.

Lemma simple_smallest : smallest (stored_times Simple.odometry) 0.
Proof.
  split; [left; reflexivity|].
  intros k [<-|[<-|[]]]; reflexivity.
Qed.

Lemma simple_largest : largest (stored_times Simple.odometry) 10.
Proof.
  split; [right; left; reflexivity|].
  intros k [<-|[<-|[]]]; reflexivity.
Qed.

Lemma simple_not_stored_2 : not_stored Simple.odometry 2.
Proof. intros k [<-|[<-|[]]]; reflexivity. Qed.

(** C1 at work: the pose at time 2 between the samples at 0 and 10. *)
Lemma get_pose_interpolates_witness :
  exists t1 t2 pose1 pose2,
    (t1 <? 2) = true /\ (2 <? t2) = true /\
    In (t1, pose1) (_trajectory Simple.odometry) /\
    In (t2, pose2) (_trajectory Simple.odometry) /\
    _get_pose Simple.odometry 2 =
      Ok (Simple.blend ((2 - t1) / (t2 - t1)) pose1 pose2).
Proof.
  destruct (get_pose_interpolates Simple.odometry 2 0 10
              simple_reachable simple_not_nan simple_not_stored_2
              simple_smallest simple_largest eq_refl eq_refl)
    as (t1 & t2 & pose1 & pose2 & _ & _ & _ & H1 & H2 & H3 & H4 & _ & H).
  exists t1, t2, pose1, pose2. auto.
Defined.

(** C3 at work: neither assertion fails for the query at time 2. *)
Lemma bracket_assertions_hold_witness :
  _get_pose Simple.odometry 2 <> Raise AssertionError.
Proof.
  apply (bracket_assertions_hold Simple.odometry 2 0 10
           simple_reachable simple_not_nan simple_not_stored_2
           simple_smallest simple_largest eq_refl eq_refl).
Defined.

(** C4 at work: the pose stored at time 10. *)
Lemma get_pose_exact_witness :
  _get_pose Simple.odometry 10 = Ok (Simple.translation 10 0 0).
Proof.
  apply (get_pose_exact Simple.odometry 10 (Simple.translation 10 0 0) 10
           simple_reachable).
  - right; left; reflexivity.
  - reflexivity.
Defined.

(** C5 at work: a query before the first sample. *)
Lemma get_pose_before_first_witness :
  _get_pose Simple.odometry (-1) = Ok eye4.
Proof.
  apply (get_pose_before_first Simple.odometry (-1) 0
           simple_reachable simple_not_nan simple_smallest).
  reflexivity.
Defined.

(** C9 at work: a query after the last sample. *)
Lemma get_pose_after_last_witness :
  _get_pose Simple.odometry 11 = Raise IndexError.
Proof.
  apply (get_pose_after_last Simple.odometry 11 10
           simple_reachable simple_not_nan simple_largest).
  reflexivity.
Defined.

(** C6 at work: a frame with point times 2 and 8 is deskewed with the
    motion from the pose at 2 to the pose at 8, six units along x. *)
Lemma register_frame_motion_delta_witness :
  exists self',
    register_frame Simple.odometry [] [2; 8] = Ok (([], None), self') /\
    last_pose self' = Simple.translation 6 0 0.
Proof.
  destruct (register_frame_motion_delta Simple.odometry [] [2; 8])
    as (t_min & t_max & Hmin & Hmax & _ & _ & _ & H); [discriminate|].
  injection Hmin as <-. injection Hmax as <-.
  eexists. split.
  - apply (H (Simple.translation 2 0 0) (Simple.translation 8 0 0)
             (Simple.translation (0 - 2) (0 - 0) (0 - 0)) 1);
      reflexivity.
  - reflexivity.
Defined.

(** C7 at work: the same call, read from its result. *)
Lemma register_frame_advances_witness :
  exists motion_delta,
    Simple.mul4 eye4 motion_delta = Simple.translation 6 0 0 /\
    @snd (list vec3) (option mat4) ([], None) = None.
Proof.
  destruct (register_frame_advances Simple.odometry [] [2; 8] ([], None)
              (advanced Simple.odometry 1 [] (Simple.translation 6 0 0))
              eq_refl)
    as (t_min & t_max & p1 & p2 & ip & v & _ & _ & _ & _ & _ & _
        & Hpose & _ & _ & Hnone & _).
  exists (Simple.mul4 ip p2). split.
  - symmetry. exact Hpose.
  - exact Hnone.
Defined.

(** C8 at work: [mixed.txt] has one good line and one line of five
    fields, and loads as one sample. *)
Lemma wrong_field_count_skipped_witness :
  read_tum_trajectory (E := Simple.externals) Simple.fs "mixed.txt"%string
  = Ok [(0, eye4)].
Proof.
  destruct (wrong_field_count_skipped (E := Simple.externals) Simple.fs
              "mixed.txt"%string _ eq_refl) as (_ & _ & H).
  apply (H ("0 0 0 0 0 0 0 1" ++ Simple.newline)%string
           ("1 2 3 4 5" ++ Simple.newline)%string).
  - exists "0"%string, "0"%string, "0"%string, "0"%string, "0"%string,
      "0"%string, "0"%string, "1"%string, 0, 0, 0, 0, 0, 0, 1.
    eexists. repeat split.
  - reflexivity.
  - left. reflexivity.
Defined.

(** C10 at work: [letters.txt] has a line of eight fields whose last
    field is a word; loading it raises [ValueError]. *)
Lemma non_numeric_field_raises_witness :
  __init__ (E := Simple.externals) Simple.fs Simple.cfg "letters.txt"%string
  = Raise ValueError.
Proof.
  apply (non_numeric_field_raises (E := Simple.externals) Simple.fs Simple.cfg
           "letters.txt"%string _
           ("1 0 0 0 0 0 0 one" ++ Simple.newline)%string "one"%string
           eq_refl).
  - right; left; reflexivity.
  - reflexivity.
  - vm_compute. tauto.
  - reflexivity.
Defined.

(** C2 at work: a path that is not there, and a file without lines. *)
Lemma load_missing_or_no_sample_witness :
  __init__ (E := Simple.externals) Simple.fs Simple.cfg "nowhere.txt"%string
  = Raise AssertionError /\
  exists self,
    __init__ (E := Simple.externals) Simple.fs Simple.cfg "empty.txt"%string
    = Ok self /\ _trajectory self = [].
Proof.
  split.
  - apply (load_missing_or_no_sample (E := Simple.externals) Simple.fs
             Simple.cfg "nowhere.txt"%string).
    reflexivity.
  - destruct (proj2 (load_missing_or_no_sample (E := Simple.externals)
                       Simple.fs Simple.cfg "empty.txt"%string)
                [] eq_refl (Forall_nil _))
      as (self & Hinit & Htraj & _).
    exists self. auto.
Defined.

(** C2 as stated fails: a file that exists and holds no line of eight
    fields loads without any error. *)
Lemma load_no_sample_counterexample :
  ~ (forall (E : Externals) (fs : FileSystem) (config : KISSConfig)
            (trajectory_fp : Path),
       fs trajectory_fp = None \/
       (exists f, fs trajectory_fp = Some f /\
                  Forall (fun line => n_fields line <> 8%nat) f) ->
       exists e, __init__ fs config trajectory_fp = Raise e).
Proof.
  intros H.
  destruct (H Simple.externals Simple.fs Simple.cfg "empty.txt"%string)
    as [e He].
  - right. exists []. split; [reflexivity | constructor].
  - vm_compute in He. discriminate.
Qed.

End Instances.

(* ================================================================== *)
(** * Part III: more about loading, lookups and frames *)

(* ------------------------------------------------------------------ *)
(** ** Assignment to a key *)

Module DictSetFacts.

Import FloatOrder FloatOrderFacts.
Local Open Scope float_scope.

Section WithValues.
Context {V : Type}.
Implicit Types (d : Py.dict V) (k : float) (v : V).

Lemma dict_get_set_same d k v :
  not_nan k -> Py.dict_get (Py.dict_set d k v) k = Some v.
Proof.
  intros Hk. induction d as [|[k0 v0] d IH]; simpl.
  - rewrite Hk. reflexivity.
  - destruct (k0 =? k) eqn:H0; simpl; rewrite H0; auto.
Qed.

Lemma dict_get_set_other d k v k' :
  (k =? k') = false ->
  Py.dict_get (Py.dict_set d k v) k' = Py.dict_get d k'.
Proof.
  intros Hne. induction d as [|[k0 v0] d IH]; simpl.
  - rewrite Hne. reflexivity.
  - destruct (k0 =? k) eqn:H0; simpl.
    + destruct (k0 =? k') eqn:H1; [|reflexivity].
      rewrite eqb_sym in H0.
      rewrite (eqb_trans _ _ _ H0 H1) in Hne. discriminate.
    + destruct (k0 =? k'); auto.
Qed.

(** An entry after an assignment is an old entry, or carries the new
    value under the new key or under the stored key that is [==] to it. *)
Lemma dict_set_entries d k0 v0 k v :
  In (k, v) (Py.dict_set d k0 v0) ->
  In (k, v) d \/ (v = v0 /\ (k = k0 \/ (k =? k0) = true)).
Proof.
  induction d as [|[k1 v1] d IH]; simpl.
  - intros [H|[]]. injection H as <- <-. auto.
  - destruct (k1 =? k0) eqn:H1; simpl.
    + intros [H|H]; [|auto]. injection H as <- <-. auto.
    + intros [H|H]; [auto|]. destruct (IH H) as [?|?]; auto.
Qed.

Lemma dict_set_length d k v :
  (List.length d <= List.length (Py.dict_set d k v) <= S (List.length d))%nat.
Proof.
  induction d as [|[k0 v0] d IH]; simpl; [lia|].
  destruct (k0 =? k); simpl; lia.
Qed.

End WithValues.

End DictSetFacts.

(* ------------------------------------------------------------------ *)
(** ** What a load stores, and why a load fails *)

Section LoadMore.

Context {E : Externals}.
Import FloatOrder FloatOrderFacts SearchFacts DictFacts DictSetFacts.
Local Open Scope py_scope.
Local Open Scope float_scope.

(** A line is skipped, or it is well formed and assigned. *)
Lemma read_line_ok_cases trajectory line d :
  read_line trajectory line = Ok d ->
  (n_fields line <> 8%nat /\ d = trajectory) \/
  (exists timestamp pose,
     well_formed line timestamp pose /\
     d = Py.dict_set trajectory timestamp pose).
Proof.
  destruct (Nat.eq_dec (n_fields line) 8) as [H8|H8].
  - destruct (length8 _ H8) as (p0 & p1 & p2 & p3 & p4 & p5 & p6 & p7 & Hp).
    rewrite (read_line_fields _ _ _ _ _ _ _ _ _ _ Hp).
    unfold float_, create_transformation.
    destruct (py_float p0) as [ts|] eqn:H0; simpl; [|discriminate].
    destruct (py_float p1) as [tx|] eqn:H1; simpl; [|discriminate].
    destruct (py_float p2) as [ty|] eqn:H2; simpl; [|discriminate].
    destruct (py_float p3) as [tz|] eqn:H3; simpl; [|discriminate].
    destruct (py_float p4) as [qx|] eqn:H4; simpl; [|discriminate].
    destruct (py_float p5) as [qy|] eqn:H5; simpl; [|discriminate].
    destruct (py_float p6) as [qz|] eqn:H6; simpl; [|discriminate].
    destruct (py_float p7) as [qw|] eqn:H7; simpl; [|discriminate].
    destruct (quat_as_matrix (qx, qy, qz, qw)) as [r|] eqn:Hq; simpl;
      [|discriminate].
    intros H. injection H as <-. right.
    exists ts, (set_translation (set_rotation eye4 r) (tx, ty, tz)).
    split; [|reflexivity].
    exists p0, p1, p2, p3, p4, p5, p6, p7, tx, ty, tz, qx, qy, qz, qw, r.
    repeat split; assumption.
  - rewrite read_line_skip by assumption. intros H. injection H as <-. auto.
Qed.


Lemma read_lines_app f g : forall trajectory,
  read_lines trajectory (f ++ g) =
  (trajectory' <- read_lines trajectory f ;; read_lines trajectory' g).
Proof.
  induction f as [|line f IH]; intros trajectory; simpl; [reflexivity|].
  destruct (read_line trajectory line); simpl; auto.
Qed.

Lemma well_formed_bottom_row line timestamp pose :
  well_formed line timestamp pose -> bottom_row pose = (0, 0, 0, 1).
Proof.
  intros (p0 & p1 & p2 & p3 & p4 & p5 & p6 & p7 & tx & ty & tz & qx & qy
          & qz & qw & r & _ & _ & _ & _ & _ & _ & _ & _ & _ & _ & ->).
  destruct r as [[[[r00 r01] r02] [[r10 r11] r12]] [[r20 r21] r22]].
  reflexivity.
Qed.

(** Where the entries of a loaded dict come from. *)
Lemma read_lines_entries f : forall trajectory d k pose,
  read_lines trajectory f = Ok d -> In (k, pose) d ->
  In (k, pose) trajectory \/
  exists line timestamp,
    In line f /\ well_formed line timestamp pose /\
    (k = timestamp \/ (k =? timestamp) = true).
Proof.
  induction f as [|line f IH]; simpl; intros trajectory d k pose Hr Hin.
  - injection Hr as <-. auto.
  - destruct (read_line trajectory line) as [t'|] eqn:Hl; simpl in Hr;
      [|discriminate].
    destruct (IH _ _ _ _ Hr Hin) as [Ht'|(l & ts & Hl' & Hw & Hk)].
    + destruct (read_line_ok_cases _ _ _ Hl) as [[_ ->]|(ts & p & Hw & ->)];
        [auto|].
      destruct (dict_set_entries _ _ _ _ _ Ht') as [?|[-> Hk]]; [auto|].
      right. exists line, ts. auto.
    + right. exists l, ts. auto.
Qed.

(** X1: every pair of a loaded trajectory comes from a well-formed line
    of the file: the pose is the pose of that line, the key is the line's
    timestamp or a stored timestamp that is [==] to it, and the last row
    of the pose is [0, 0, 0, 1]. *)
Theorem loaded_pose_provenance fs trajectory_fp d k pose :
  read_tum_trajectory fs trajectory_fp = Ok d -> In (k, pose) d ->
  exists f line timestamp,
    fs trajectory_fp = Some f /\ In line f /\
    well_formed line timestamp pose /\
    (k = timestamp \/ (k =? timestamp) = true) /\
    bottom_row pose = (0, 0, 0, 1).
Proof.
  unfold read_tum_trajectory.
  destruct (fs trajectory_fp) as [f|]; [|discriminate].
  intros Hr Hin.
  destruct (read_lines_entries f [] d k pose Hr Hin)
    as [[]|(line & ts & Hl & Hw & Hk)].
  exists f, line, ts. repeat split; try assumption.
  exact (well_formed_bottom_row _ _ _ Hw).
Qed.

Lemma read_lines_keeps f : forall trajectory d timestamp pose,
  read_lines trajectory f = Ok d ->
  Py.dict_get trajectory timestamp = Some pose ->
  (forall l ts' p', In l f -> well_formed l ts' p' ->
     (ts' =? timestamp) = false) ->
  Py.dict_get d timestamp = Some pose.
Proof.
  induction f as [|line f IH]; simpl; intros trajectory d ts pose Hr Hg Hf.
  - injection Hr as <-. exact Hg.
  - destruct (read_line trajectory line) as [t'|] eqn:Hl; simpl in Hr;
      [|discriminate].
    apply (IH t' d ts pose Hr).
    + destruct (read_line_ok_cases _ _ _ Hl) as [[_ ->]|(ts' & p' & Hw & ->)];
        [exact Hg|].
      rewrite dict_get_set_other; [exact Hg|].
      apply (Hf line ts' p'); auto.
    + intros l ts' p' Hin. apply Hf. auto.
Qed.

(** X2: a later line overwrites an earlier one with the same timestamp.
    If the file loads, a well-formed line whose timestamp no later line
    repeats decides the pose that a lookup of this timestamp returns,
    whatever the lines before it hold. *)
Theorem later_line_overwrites fs config trajectory_fp self
  before line after timestamp pose :
  fs trajectory_fp = Some (before ++ line :: after)%list ->
  __init__ fs config trajectory_fp = Ok self ->
  well_formed line timestamp pose -> not_nan timestamp ->
  (forall l ts' p', In l after -> well_formed l ts' p' ->
     (ts' =? timestamp) = false) ->
  Py.dict_get (_trajectory self) timestamp = Some pose /\
  _get_pose self timestamp = Ok pose.
Proof.
  intros Hfs Hinit Hw Hn Hafter.
  unfold __init__, read_tum_trajectory in Hinit. rewrite Hfs in Hinit.
  destruct (read_lines [] (before ++ line :: after)) as [d|] eqn:Hr;
    simpl in Hinit; [|discriminate].
  injection Hinit as <-. simpl.
  rewrite read_lines_app in Hr.
  destruct (read_lines [] before) as [d0|] eqn:H0; simpl in Hr;
    [|discriminate].
  rewrite (read_line_well_formed _ _ _ _ Hw) in Hr. simpl in Hr.
  assert (Hg : Py.dict_get d timestamp = Some pose).
  { apply (read_lines_keeps after _ d timestamp pose Hr); [|exact Hafter].
    apply dict_get_set_same, Hn. }
  split; [exact Hg|].
  unfold _get_pose, Py.dict_contains, Py.dict_getitem. simpl.
  rewrite Hg. reflexivity.
Qed.



Lemma read_lines_length f : forall trajectory d,
  read_lines trajectory f = Ok d ->
  (List.length trajectory <= List.length d
   <= List.length trajectory
      + List.length (filter (fun l => (n_fields l =? 8)%nat) f))%nat.
Proof.
  induction f as [|line f IH]; simpl; intros trajectory d Hr.
  - injection Hr as <-. lia.
  - destruct (read_line trajectory line) as [t'|] eqn:Hl; simpl in Hr;
      [|discriminate].
    pose proof (IH _ _ Hr) as Hlen.
    destruct (read_line_ok_cases _ _ _ Hl) as [[H8 ->]|(ts & p & Hw & ->)].
    + apply Nat.eqb_neq in H8. rewrite H8. exact Hlen.
    + assert (H8 : (n_fields line =? 8)%nat = true).
      { destruct Hw as (p0 & p1 & p2 & p3 & p4 & p5 & p6 & p7 & Hw).
        destruct Hw as (tx & ty & tz & qx & qy & qz & qw & r & Hp & _).
        unfold n_fields. rewrite Hp. reflexivity. }
      rewrite H8. simpl.
      pose proof (dict_set_length trajectory ts p). lia.
Qed.

(** X4: what [__init__] builds.  The pose starts as the identity, there
    is one sorted time per stored key and the sorted times are the
    stored keys, at most one per line of eight fields; if no stored
    timestamp is NaN the sorted times increase strictly. *)
Theorem init_postcondition fs config trajectory_fp self :
  __init__ fs config trajectory_fp = Ok self ->
  last_pose self = eye4 /\
  List.length (_sorted_trajectory_times self)
    = List.length (_trajectory self) /\
  (forall z, In z (_sorted_trajectory_times self) <->
             In z (stored_times self)) /\
  (exists f, fs trajectory_fp = Some f /\
     (List.length (_trajectory self)
      <= List.length (filter (fun l => (n_fields l =? 8)%nat) f))%nat) /\
  (times_not_nan self ->
   StronglySorted flt (_sorted_trajectory_times self)).
Proof.
  intros Hinit.
  pose proof (reach_init fs config trajectory_fp Hinit) as Hr.
  destruct (reachable_store_ok _ Hr) as [Hd Hs].
  unfold __init__, read_tum_trajectory in Hinit.
  destruct (fs trajectory_fp) as [f|]; [|discriminate].
  destruct (read_lines [] f) as [d|] eqn:Hread; simpl in Hinit;
    [|discriminate].
  injection Hinit as <-. simpl in *.
  split; [reflexivity|]. split.
  - unfold Py.dict_keys. rewrite sorted_length, length_map. reflexivity.
  - split; [intros z; apply sorted_in|]. split.
    + exists f. split; [reflexivity|].
      pose proof (read_lines_length f [] d Hread). simpl in *. lia.
    + intros Hn. apply sorted_sorted; assumption.
Qed.

End LoadMore.

(* ------------------------------------------------------------------ *)
(** ** Every kind of query *)

Section LookupMore.

Context {E : Externals}.
Import FloatOrder FloatOrderFacts SearchFacts DictFacts.
Local Open Scope py_scope.
Local Open Scope float_scope.

Lemma ltb_nan_r x y : (y =? y) = false -> (x <? y) = false.
Proof.
  intros Hy. destruct (x <? y) eqn:H; [|reflexivity].
  pose proof (ltb_not_nan_r _ _ H) as Hn. unfold not_nan in Hn. congruence.
Qed.

Lemma ltb_nan_l x y : (x =? x) = false -> (x <? y) = false.
Proof.
  intros Hx. destruct (x <? y) eqn:H; [|reflexivity].
  pose proof (ltb_not_nan_l _ _ H) as Hn. unfold not_nan in Hn. congruence.
Qed.

Lemma eqb_nan_r x y : (y =? y) = false -> (x =? y) = false.
Proof.
  intros Hy. destruct (x =? y) eqn:H; [|reflexivity].
  apply eqb_key in H. destruct H as (_ & Hn & _). unfold not_nan in Hn.
  congruence.
Qed.

(** If no element is below [x], the loop only ever lowers [hi]. *)
Lemma bisect_loop_none_below a x :
  (forall j, (nth j a nan <? x) = false) ->
  forall lo hi, Py.bisect_loop a x lo hi = lo.
Proof.
  intros Hall lo hi. funelim (Py.bisect_loop a x lo hi).
  - reflexivity.
  - rewrite Hall in Heq. discriminate.
  - auto.
Qed.


(** The lookup when [bisect_left] runs off the end of the list. *)
Lemma get_pose_past_end self stamp :
  let a := _sorted_trajectory_times self in
  not_stored self stamp -> (0 < List.length a)%nat ->
  (stamp <? nth 0 a nan) = false ->
  Py.bisect_left a stamp = List.length a ->
  _get_pose self stamp = Raise IndexError.
Proof.
  intros a Hns Hlen Hfirst Heq.
  rewrite (get_pose_search self stamp (nth 0 a nan)).
  - cbv zeta. fold a. rewrite Heq.
    assert (Hge : (Z.of_nat (List.length a) - 1 >=? 0)%Z = true)
      by (apply Z.geb_le; lia).
    rewrite Hge.
    replace (Z.of_nat (List.length a) - 1)%Z
      with (Z.of_nat (List.length a - 1)) by lia.
    rewrite (getitem_nat a (List.length a - 1) nan) by lia.
    rewrite getitem_len. reflexivity.
  - apply not_stored_contains, Hns.
  - fold a. change 0%Z with (Z.of_nat 0). apply getitem_nat, Hlen.
  - exact Hfirst.
Qed.

(** A query that is a number, on a store whose timestamps are numbers:
    it is answered unless every stored timestamp is below it, and then the
    lookup raises [IndexError]. *)
Lemma lookup_cases self stamp :
  reachable self -> times_not_nan self -> not_nan stamp ->
  ((forall k, In k (stored_times self) -> (k <? stamp) = true) /\
   _get_pose self stamp = Raise IndexError) \/
  ((exists k, In k (stored_times self) /\ (k <? stamp) = false) /\
   exists pose, _get_pose self stamp = Ok pose).
Proof.
  intros Hr Hn Hstamp.
  assert (Hnn : forall k, In k (stored_times self) -> not_nan k)
    by (apply Forall_forall; exact Hn).
  destruct (Py.dict_get (_trajectory self) stamp) as [p|] eqn:Hget.
  - right. destruct (dict_get_in _ _ _ Hget) as (k & Hin & Hk). split.
    + exists k. split; [exact (in_dict_keys _ _ _ Hin)|].
      rewrite (eqb_ltb_l _ _ stamp Hk). apply ltb_irrefl.
    + exists p. unfold _get_pose, Py.dict_contains, Py.dict_getitem.
      rewrite Hget. reflexivity.
  - assert (Hns : not_stored self stamp)
      by exact (proj1 (dict_get_none _ _) Hget).
    destruct (times_sorted self Hr Hn) as [Hs Hin].
    set (a := _sorted_trajectory_times self) in *.
    destruct (Nat.eq_dec (List.length a) 0) as [H0|H0].
    + left. assert (Ha : a = []) by (destruct a; [reflexivity|discriminate]).
      split.
      * intros k Hk. apply Hin in Hk. rewrite Ha in Hk. contradiction.
      * unfold _get_pose. rewrite (not_stored_contains _ _ Hns).
        fold a. rewrite Ha. reflexivity.
    + assert (Hlen : (0 < List.length a)%nat) by lia.
      assert (Hfirst : In (nth 0 a nan) (stored_times self))
        by (apply Hin, nth_In, Hlen).
      destruct (trichotomy stamp (nth 0 a nan) Hstamp (Hnn _ Hfirst))
        as [Hlt|[Heq|Hgt]].
      * right. split.
        -- exists (nth 0 a nan). split; [exact Hfirst|].
           apply ltb_asym, Hlt.
        -- exists eye4. unfold _get_pose.
           rewrite (not_stored_contains _ _ Hns). fold a.
           change 0%Z with (Z.of_nat 0).
           rewrite (getitem_nat a 0 nan Hlen). simpl. rewrite Hlt.
           reflexivity.
      * rewrite eqb_sym, (Hns _ Hfirst) in Heq. discriminate.
      * destruct (bisect_left_spec a stamp Hs) as (Hi & Hbelow & Habove).
        set (i := Py.bisect_left a stamp) in *.
        assert (Hi0 : (0 < i)%nat).
        { destruct (Nat.eq_dec i 0) as [Hz|Hz]; [|lia].
          rewrite Habove in Hgt by lia. discriminate. }
        destruct (Nat.eq_dec i (List.length a)) as [Hend|Hend].
        -- left. split.
           ++ intros k Hk. apply Hin, in_nth_nan in Hk.
              destruct Hk as (j & Hj & <-). apply Hbelow. lia.
           ++ apply get_pose_past_end; try assumption.
              apply ltb_asym, Hgt.
        -- right.
           assert (Hi2 : In (nth i a nan) (stored_times self))
             by (apply Hin, nth_In; lia).
           assert (Hi1 : In (nth (i - 1) a nan) (stored_times self))
             by (apply Hin, nth_In; lia).
           split.
           ++ exists (nth i a nan). split; [exact Hi2|]. apply Habove. lia.
           ++ destruct (stored_has_pose self _ Hi1) as [pose1 Hp1].
              destruct (stored_has_pose self _ Hi2) as [pose2 Hp2].
              eexists.
              apply (get_pose_at_bracket self stamp pose1 pose2);
                try assumption; fold a; fold i; try lia.
              ** apply ltb_asym, Hgt.
              ** apply Hbelow. lia.
              ** destruct (trichotomy stamp (nth i a nan) Hstamp (Hnn _ Hi2))
                   as [H|[H|H]]; [exact H| |].
                 --- rewrite eqb_sym, (Hns _ Hi2) in H. discriminate.
                 --- rewrite Habove in H by lia. discriminate.
Qed.

End LookupMore.

Section LookupTheorems.

Context {E : Externals}.
Import FloatOrder FloatOrderFacts SearchFacts DictFacts.
Local Open Scope py_scope.
Local Open Scope float_scope.

(** X5: a NaN query is never answered.  No key is [==] to it and it is
    below nothing, so [bisect_left] returns 0 and the first assertion
    fails; on an empty store the read of the first time fails before
    that. *)
Theorem get_pose_nan self stamp :
  (stamp =? stamp) = false ->
  Py.bisect_left (_sorted_trajectory_times self) stamp = 0%nat /\
  _get_pose self stamp =
    match _sorted_trajectory_times self with
    | [] => Raise IndexError
    | _ :: _ => Raise AssertionError
    end.
Proof.
  intros Hnan.
  assert (Hb : Py.bisect_left (_sorted_trajectory_times self) stamp = 0%nat).
  { unfold Py.bisect_left. apply bisect_loop_none_below.
    intros j. apply ltb_nan_r, Hnan. }
  split; [exact Hb|].
  assert (Hc : Py.dict_contains (_trajectory self) stamp = false).
  { apply not_stored_contains. intros k _. apply eqb_nan_r, Hnan. }
  unfold _get_pose. rewrite Hc, Hb.
  destruct (_sorted_trajectory_times self) as [|first rest]; [reflexivity|].
  simpl. rewrite (ltb_nan_l stamp first Hnan). reflexivity.
Qed.

(** X6: on a reachable store whose timestamps are numbers, a query that
    is a number is answered with a pose unless every stored timestamp is
    below it (an empty store counts); then, and only then, the lookup
    raises [IndexError].  It raises nothing else. *)
Theorem get_pose_numeric_cases self stamp :
  reachable self -> times_not_nan self -> not_nan stamp ->
  (_get_pose self stamp = Raise IndexError <->
   forall k, In k (stored_times self) -> (k <? stamp) = true) /\
  (forall e, _get_pose self stamp = Raise e -> e = IndexError) /\
  ((exists k, In k (stored_times self) /\ (k <? stamp) = false) ->
   exists pose, _get_pose self stamp = Ok pose).
Proof.
  intros Hr Hn Hstamp.
  destruct (lookup_cases self stamp Hr Hn Hstamp)
    as [[Hall Hraise]|[(k & Hk & Hkf) [pose Hok]]].
  - split; [split; auto|]. split.
    + intros e He. congruence.
    + intros (k & Hk & Hkf). rewrite (Hall k Hk) in Hkf. discriminate.
  - split; [split|split].
    + intros H. congruence.
    + intros Hall. rewrite (Hall k Hk) in Hkf. discriminate.
    + intros e He. congruence.
    + intros _. exists pose. exact Hok.
Qed.

(** X7: registering a frame changes no lookup: the call leaves the
    trajectory and its sorted times alone, so every later query gets the
    answer it would have got before. *)
Theorem register_frame_keeps_lookups self frame timestamps out self' :
  register_frame self frame timestamps = Ok (out, self') ->
  _trajectory self' = _trajectory self /\
  _sorted_trajectory_times self' = _sorted_trajectory_times self /\
  forall stamp, _get_pose self' stamp = _get_pose self stamp.
Proof.
  intros Hreg.
  destruct (register_frame_store _ _ _ _ _ Hreg) as [Ht Hs].
  split; [exact Ht|]. split; [exact Hs|].
  intros stamp. unfold _get_pose. rewrite Ht, Hs. reflexivity.
Qed.


(** X9: a frame that reaches past the end of the trajectory cannot be
    registered.  If some point time of the frame is above every stored
    timestamp (no NaN on either side), [register_frame] raises
    [IndexError], wherever the other point times lie. *)
Theorem frame_past_end_raises self frame timestamps x :
  reachable self -> times_not_nan self -> Forall not_nan timestamps ->
  In x timestamps ->
  (forall k, In k (stored_times self) -> (k <? x) = true) ->
  register_frame self frame timestamps = Raise IndexError.
Proof.
  intros Hr Hn Hts Hx Habove.
  assert (Hne : timestamps <> []) by (intros ->; contradiction).
  destruct (MinMaxFacts.min_max_spec timestamps Hne)
    as (t_min & t_max & Hmin & Hmax & Hin1 & Hin2 & Hbounds).
  assert (Hnn : forall z, In z timestamps -> not_nan z)
    by (apply Forall_forall; exact Hts).
  assert (Hmaxall : forall k, In k (stored_times self) -> (k <? t_max) = true).
  { intros k Hk. destruct (Hbounds Hts x Hx) as [_ Hxm].
    destruct (trichotomy x t_max (Hnn _ Hx) (Hnn _ Hin2)) as [H|[H|H]].
    - exact (ltb_trans _ _ _ (Habove k Hk) H).
    - rewrite <- (eqb_ltb_r _ _ k H). exact (Habove k Hk).
    - congruence. }
  assert (H2 : _get_pose self t_max = Raise IndexError).
  { destruct (lookup_cases self t_max Hr Hn (Hnn _ Hin2))
      as [[_ H]|[(k & Hk & Hkf) _]]; [exact H|].
    rewrite (Hmaxall k Hk) in Hkf. discriminate. }
  unfold register_frame. rewrite Hmin, Hmax. simpl.
  destruct (lookup_cases self t_min Hr Hn (Hnn _ Hin1))
    as [[_ H1]|[_ [p1 H1]]]; rewrite H1; simpl; [reflexivity|].
  rewrite H2. reflexivity.
Qed.

Lemma register_frame_delta self frame timestamps out self1 :
  register_frame self frame timestamps = Ok (out, self1) ->
  exists delta,
    motion_delta self timestamps = Ok delta /\
    last_pose self1 = matmul (last_pose self) delta /\
    snd out = None.
Proof.
  unfold register_frame, motion_delta.
  destruct (Py.min timestamps); simpl; [|discriminate].
  destruct (Py.max timestamps); simpl; [|discriminate].
  destruct (_get_pose self _); simpl; [|discriminate].
  destruct (_get_pose self _); simpl; [|discriminate].
  destruct (linalg_inv _); simpl; [|discriminate].
  destruct (mapping_voxel_size _); [|discriminate].
  intros H. injection H as <- <-. eexists. repeat split.
Qed.

Lemma motion_delta_same_store self self1 timestamps :
  _trajectory self1 = _trajectory self ->
  _sorted_trajectory_times self1 = _sorted_trajectory_times self ->
  motion_delta self1 timestamps = motion_delta self timestamps.
Proof.
  intros Ht Hs. unfold motion_delta, _get_pose. rewrite Ht, Hs. reflexivity.
Qed.

(** X10: two frames registered one after the other compose their motion
    deltas on the right of the starting pose, in the order of the calls.
    The second delta is the one the starting object computes from the
    second frame's timestamps: the first frame does not influence it. *)
Theorem register_frame_twice self frame1 ts1 out1 self1 frame2 ts2 out2 self2 :
  register_frame self frame1 ts1 = Ok (out1, self1) ->
  register_frame self1 frame2 ts2 = Ok (out2, self2) ->
  exists delta1 delta2,
    motion_delta self ts1 = Ok delta1 /\
    motion_delta self ts2 = Ok delta2 /\
    last_pose self2 = matmul (matmul (last_pose self) delta1) delta2 /\
    _trajectory self2 = _trajectory self.
Proof.
  intros H1 H2.
  destruct (register_frame_delta _ _ _ _ _ H1) as (d1 & Hd1 & Hp1 & _).
  destruct (register_frame_delta _ _ _ _ _ H2) as (d2 & Hd2 & Hp2 & _).
  destruct (register_frame_store _ _ _ _ _ H1) as [Ht1 Hs1].
  destruct (register_frame_store _ _ _ _ _ H2) as [Ht2 Hs2].
  exists d1, d2. repeat split.
  - exact Hd1.
  - rewrite <- (motion_delta_same_store self self1 _ Ht1 Hs1). exact Hd2.
  - rewrite Hp2, Hp1. reflexivity.
  - congruence.
Qed.

End LookupTheorems.

(* ------------------------------------------------------------------ *)
(** ** The command line: dataloader names and the configuration dict *)

Module CliFacts.

Import Cli.
Local Open Scope string_scope.

Lemma lower_char_idem c : lower_char (lower_char c) = lower_char c.
Proof.
  destruct c as [b0 b1 b2 b3 b4 b5 b6 b7].
  destruct b0, b1, b2, b3, b4, b5, b6, b7; reflexivity.
Qed.

Lemma lower_idem s : lower (lower s) = lower s.
Proof.
  induction s as [|c s IH]; simpl; [reflexivity|].
  rewrite lower_char_idem, IH. reflexivity.
Qed.

Lemma lower_empty s : lower s = "" -> s = "".
Proof. destruct s; [reflexivity | discriminate]. Qed.

Section Search.

Variable A : Type.
Variable f : A -> bool.

(** [find] returns the first element that passes the test. *)
Lemma find_first l d :
  find f l = Some d ->
  exists before after,
    l = (before ++ d :: after)%list /\ f d = true /\
    forall x, In x before -> f x = false.
Proof.
  induction l as [|a l IH]; simpl; [discriminate|].
  destruct (f a) eqn:Ha.
  - intros H. injection H as <-. exists [], l. repeat split; auto.
    intros x [].
  - intros H. destruct (IH H) as (before & after & -> & Hd & Hb).
    exists (a :: before), after. repeat split; auto.
    intros x [<-|Hx]; auto.
Qed.

Lemma find_none l : find f l = None <-> forall x, In x l -> f x = false.
Proof.
  induction l as [|a l IH]; simpl.
  - split; [intros _ x [] | reflexivity].
  - destruct (f a) eqn:Ha; split.
    + discriminate.
    + intros H. rewrite (H a (or_introl eq_refl)) in Ha. discriminate.
    + intros H x [<-|Hx]; [exact Ha | apply IH; assumption].
    + intros H. apply IH. intros x Hx. apply H. right; exact Hx.
Qed.

End Search.

Lemma existsb_lower v dl :
  existsb (String.eqb (lower v)) (map lower dl) = true <->
  exists d, In d dl /\ lower v = lower d.
Proof.
  rewrite existsb_exists. split.
  - intros (x & Hx & He). apply in_map_iff in Hx.
    destruct Hx as (d & <- & Hd). apply String.eqb_eq in He. eauto.
  - intros (d & Hd & He). exists (lower d). split.
    + apply in_map, Hd.
    + apply String.eqb_eq, He.
Qed.

(** For a name that is not empty the callback is a search: the first
    dataloader with the same lowercase spelling, or [BadParameter]. *)
Lemma name_callback_search dl v :
  v <> "" ->
  name_callback dl (Some v) =
    match find (fun d => String.eqb (lower v) (lower d)) dl with
    | Some d => Return (Some d)
    | None => BadParameter ("Supported dataloaders are: " ++ join ", " dl)
    end.
Proof.
  intros Hv. destruct v as [|c v]; [congruence|].
  unfold name_callback.
  destruct (find (fun d => String.eqb (lower (String c v)) (lower d)) dl)
    as [d|] eqn:Hf.
  - assert (He : existsb (String.eqb (lower (String c v))) (map lower dl)
                 = true).
    { apply existsb_lower. apply find_some in Hf. destruct Hf as [Hd He].
      apply String.eqb_eq in He. eauto. }
    rewrite He. reflexivity.
  - assert (He : existsb (String.eqb (lower (String c v))) (map lower dl)
                 = false).
    { destruct (existsb _ _) eqn:H; [|reflexivity].
      apply existsb_lower in H. destruct H as (d & Hd & Hl).
      pose proof (proj1 (find_none _ _ _) Hf d Hd) as Hx. cbv beta in Hx.
      apply String.eqb_neq in Hx. contradiction. }
    rewrite He. reflexivity.
Qed.

(** X11: when the callback returns for a name that is not empty, it
    returns the first available dataloader whose lowercase spelling is the
    name's, in the dataloader's own spelling; the name itself is never
    handed back unchecked. *)
Theorem name_callback_canonical dl v d :
  v <> "" -> name_callback dl (Some v) = Return (Some d) ->
  exists before after,
    dl = (before ++ d :: after)%list /\ lower d = lower v /\
    forall x, In x before -> lower x <> lower v.
Proof.
  intros Hv. rewrite (name_callback_search dl v Hv).
  destruct (find _ dl) as [d'|] eqn:Hf; [|discriminate].
  intros H. injection H as <-.
  destruct (find_first _ _ _ _ Hf) as (before & after & Hdl & Hd & Hb).
  exists before, after. split; [exact Hdl|]. split.
  - apply String.eqb_eq in Hd. auto.
  - intros x Hx Heq. specialize (Hb x Hx). cbv beta in Hb.
    apply String.eqb_neq in Hb. auto.
Qed.

(** X12: for a name that is not empty the callback raises
    [BadParameter] exactly when no available dataloader has the name's
    lowercase spelling, and the message lists the dataloaders separated
    by a comma and a space. *)
Theorem name_callback_bad_parameter dl v :
  v <> "" ->
  ((exists m, name_callback dl (Some v) = BadParameter m) <->
   forall d, In d dl -> lower d <> lower v) /\
  (forall m, name_callback dl (Some v) = BadParameter m ->
     m = "Supported dataloaders are: " ++ join ", " dl).
Proof.
  intros Hv. rewrite (name_callback_search dl v Hv).
  destruct (find _ dl) as [d|] eqn:Hf.
  - split; [split|].
    + intros [m H]. discriminate.
    + intros H. apply find_some in Hf. destruct Hf as [Hd He].
      apply String.eqb_eq in He. specialize (H d Hd). congruence.
    + intros m H. discriminate.
  - split; [split|].
    + intros _ d Hd Heq.
      pose proof (proj1 (find_none _ _ _) Hf d Hd) as Hx. cbv beta in Hx.
      apply String.eqb_neq in Hx. auto.
    + intros _. eexists. reflexivity.
    + intros m H. injection H as <-. reflexivity.
Qed.

(** X13: the callback is idempotent: what it returns, it returns again
    when it is called on it. *)
Theorem name_callback_idempotent dl value r :
  name_callback dl value = Return r -> name_callback dl r = Return r.
Proof.
  destruct value as [v|]; [|intros H; injection H as <-; reflexivity].
  destruct (string_dec v "") as [->|Hv];
    [intros H; injection H as <-; reflexivity|].
  rewrite (name_callback_search dl v Hv).
  destruct (find _ dl) as [d|] eqn:Hf; [|discriminate].
  intros H. injection H as <-.
  pose proof (find_some _ _ Hf) as [_ He]. cbv beta in He.
  apply String.eqb_eq in He.
  assert (Hd : d <> "").
  { intros ->. simpl in He. apply lower_empty in He. contradiction. }
  rewrite (name_callback_search dl d Hd), <- He, Hf. reflexivity.
Qed.

(** X14: the callback does not look at the case of the name: two names
    with the same lowercase spelling get the same outcome, so a name and
    its lowercase spelling do. *)
Theorem name_callback_ignores_case dl v v' :
  lower v = lower v' ->
  name_callback dl (Some v) = name_callback dl (Some v') /\
  name_callback dl (Some (lower v)) = name_callback dl (Some v).
Proof.
  assert (Hsame : forall a b, lower a = lower b ->
            name_callback dl (Some a) = name_callback dl (Some b)).
  { intros a b Hl. destruct (string_dec a "") as [->|Ha].
    - simpl in Hl. symmetry in Hl. apply lower_empty in Hl. subst b.
      reflexivity.
    - assert (Hb : b <> "").
      { intros ->. simpl in Hl. apply lower_empty in Hl. contradiction. }
      rewrite (name_callback_search dl a Ha), (name_callback_search dl b Hb).
      rewrite Hl. reflexivity. }
  intros Hl. split; [exact (Hsame _ _ Hl)|].
  apply Hsame, lower_idem.
Qed.

Section UserConfigFacts.

Variable PyObject : Type.
Variable of_path : Path -> PyObject.
Variable of_str : string -> PyObject.
Variable path_name : Path -> string.

Implicit Types (d m : kwargs PyObject) (k : string) (v : PyObject).
Implicit Type config_file : option (kwargs PyObject).

Lemma kw_get_set_same d k v : kw_get (kw_set d k v) k = Some v.
Proof.
  induction d as [|[k0 v0] d IH]; simpl.
  - rewrite String.eqb_refl. reflexivity.
  - destruct (String.eqb k0 k) eqn:H0; simpl; rewrite H0; auto.
Qed.

Lemma kw_get_set_other d k v k' :
  k <> k' -> kw_get (kw_set d k v) k' = kw_get d k'.
Proof.
  intros Hne. induction d as [|[k0 v0] d IH]; simpl.
  - apply String.eqb_neq in Hne. rewrite Hne. reflexivity.
  - destruct (String.eqb k0 k) eqn:H0; simpl.
    + apply String.eqb_eq in H0. subst k0.
      apply String.eqb_neq in Hne. rewrite Hne. reflexivity.
    + destruct (String.eqb k0 k'); auto.
Qed.

Lemma kw_get_not_in m k : ~ In k (map fst m) -> kw_get m k = None.
Proof.
  induction m as [|[k0 v0] m IH]; simpl; [reflexivity|].
  intros H. destruct (String.eqb k0 k) eqn:H0.
  - apply String.eqb_eq in H0. subst. tauto.
  - apply IH. tauto.
Qed.

(** Updating with a mapping: its bindings win, the others stay. *)
Lemma kw_get_update m : forall d k,
  NoDup (map fst m) ->
  kw_get (kw_update d m) k =
    match kw_get m k with
    | Some v => Some v
    | None => kw_get d k
    end.
Proof.
  unfold kw_update.
  induction m as [|[k0 v0] m IH]; simpl; intros d k Hnd; [reflexivity|].
  inversion Hnd as [|? ? Hk0 Hnd']; subst.
  rewrite (IH _ _ Hnd'). simpl.
  destruct (String.eqb k0 k) eqn:H0.
  - apply String.eqb_eq in H0. subst k0.
    rewrite (kw_get_not_in m k Hk0). apply kw_get_set_same.
  - apply String.eqb_neq in H0.
    rewrite (kw_get_set_other d k0 v0 k H0). reflexivity.
Qed.

Lemma user_after_file config_file k :
  NoDup (map fst (file_mapping config_file)) ->
  kw_get (match config_file with
          | Some m => kw_update [] m
          | None => []
          end) k = kw_get (file_mapping config_file) k.
Proof.
  destruct config_file as [m|]; simpl; [|reflexivity].
  intros Hnd. rewrite (kw_get_update m [] k Hnd). simpl.
  destruct (kw_get m k); reflexivity.
Qed.

(** X15: where the log directory comes from: the command line if
    [--log_dir] is given, else the configuration file if it has the key
    (whatever the value, a null included), else ["results"]. *)
Theorem config_log_dir config_file log_dir run_name data_path :
  NoDup (map fst (file_mapping config_file)) ->
  kw_get (user_rko_lio_config of_path of_str path_name
            config_file log_dir run_name data_path) "log_dir" =
    Some match log_dir, kw_get (file_mapping config_file) "log_dir" with
         | Some p, _ => of_path p
         | None, Some v => v
         | None, None => of_str "results"
         end.
Proof.
  intros Hnd. unfold user_rko_lio_config. cbv zeta.
  rewrite kw_get_set_other by discriminate.
  rewrite kw_get_set_same. unfold kw_get_default.
  rewrite (user_after_file config_file "log_dir" Hnd).
  destruct log_dir; reflexivity.
Qed.

(** X16: where the run name comes from: the command line if
    [--run_name] is given and is not the empty string, else the
    configuration file if it has the key, else the name of the data
    path. *)
Theorem config_run_name config_file log_dir run_name data_path :
  NoDup (map fst (file_mapping config_file)) ->
  kw_get (user_rko_lio_config of_path of_str path_name
            config_file log_dir run_name data_path) "run_name" =
    Some match run_name, kw_get (file_mapping config_file) "run_name" with
         | Some (String c s), _ => of_str (String c s)
         | _, Some v => v
         | _, None => of_str (path_name data_path)
         end.
Proof.
  intros Hnd. unfold user_rko_lio_config. cbv zeta.
  rewrite kw_get_set_same. unfold kw_get_default.
  rewrite kw_get_set_other by discriminate.
  rewrite (user_after_file config_file "run_name" Hnd).
  destruct run_name as [[|c s]|]; reflexivity.
Qed.

(** X17: every other key of the configuration file reaches the pipeline
    configuration with the value the file gives it, and no other key is
    added. *)
Theorem config_other_keys config_file log_dir run_name data_path k :
  NoDup (map fst (file_mapping config_file)) ->
  k <> "log_dir" -> k <> "run_name" ->
  kw_get (user_rko_lio_config of_path of_str path_name
            config_file log_dir run_name data_path) k =
    kw_get (file_mapping config_file) k.
Proof.
  intros Hnd H1 H2. unfold user_rko_lio_config. cbv zeta.
  rewrite kw_get_set_other by congruence.
  rewrite kw_get_set_other by congruence.
  apply user_after_file, Hnd.
Qed.

End UserConfigFacts.

End CliFacts.

(* ------------------------------------------------------------------ *)
(** ** These theorems at work *)

Section MoreInstances.

Import FloatOrder.
Local Open Scope float_scope.

Lemma simple_init :
  __init__ (E := Simple.externals) Simple.fs Simple.cfg "traj.txt"%string
  = Ok Simple.odometry.
Proof. vm_compute. reflexivity. Qed.

Lemma zero_line_well_formed :
  well_formed (E := Simple.externals)
    ("0 5 0 0 0 0 0 1" ++ Simple.newline)%string 0 (Simple.translation 5 0 0).
Proof.
  exists "0"%string, "5"%string, "0"%string, "0"%string, "0"%string,
    "0"%string, "0"%string, "1"%string, 5, 0, 0, 0, 0, 0, 1.
  eexists. repeat split.
Qed.

(** X1 at work: the pose stored at time 10 in [traj.txt]. *)
Lemma loaded_pose_provenance_witness :
  bottom_row (Simple.translation 10 0 0) = (0, 0, 0, 1).
Proof.
  destruct (loaded_pose_provenance (E := Simple.externals) Simple.fs
              "traj.txt"%string
              [(0, eye4); (10, Simple.translation 10 0 0)]
              10 (Simple.translation 10 0 0) eq_refl
              (or_intror (or_introl eq_refl)))
    as (f & line & ts & _ & _ & _ & _ & H).
  exact H.
Defined.

(** X2 at work: [twice.txt] gives time 0 twice; the second pose stays. *)
Lemma later_line_overwrites_witness :
  exists self,
    __init__ (E := Simple.externals) Examples.fs Simple.cfg "twice.txt"%string
    = Ok self /\
    _get_pose self 0 = Ok (Simple.translation 5 0 0).
Proof.
  eexists. split; [vm_compute; reflexivity|].
  apply (later_line_overwrites (E := Simple.externals) Examples.fs Simple.cfg
           "twice.txt"%string _
           ["0 0 0 0 0 0 0 1" ++ Simple.newline]%string
           ("0 5 0 0 0 0 0 1" ++ Simple.newline)%string [] 0
           (Simple.translation 5 0 0) eq_refl eq_refl
           zero_line_well_formed eq_refl).
  intros l ts' p' [].
Defined.


(** X4 at work: the object built from [traj.txt]. *)
Lemma init_postcondition_witness :
  StronglySorted flt (_sorted_trajectory_times Simple.odometry).
Proof.
  apply (init_postcondition (E := Simple.externals) Simple.fs Simple.cfg
           "traj.txt"%string Simple.odometry simple_init).
  exact simple_not_nan.
Defined.

(** X5 at work: a NaN query. *)
Lemma get_pose_nan_witness :
  _get_pose Simple.odometry nan = Raise AssertionError.
Proof.
  exact (proj2 (get_pose_nan Simple.odometry nan eq_refl)).
Defined.

(** X6 at work: a query at time 5. *)
Lemma get_pose_numeric_cases_witness :
  exists pose, _get_pose Simple.odometry 5 = Ok pose.
Proof.
  apply (get_pose_numeric_cases Simple.odometry 5
           simple_reachable simple_not_nan eq_refl).
  exists 10. split; [right; left; reflexivity | reflexivity].
Defined.

(** X7 at work: the query at time 5 after a frame. *)
Lemma register_frame_keeps_lookups_witness :
  _get_pose (advanced Simple.odometry 1 [] (Simple.translation 6 0 0)) 5
  = _get_pose Simple.odometry 5.
Proof.
  apply (register_frame_keeps_lookups Simple.odometry [] [2; 8] ([], None)
           (advanced Simple.odometry 1 [] (Simple.translation 6 0 0))
           eq_refl).
Defined.

(** X9 at work: a frame that ends at time 12, after the last sample. *)
Lemma frame_past_end_raises_witness :
  register_frame Simple.odometry [] [8; 12] = Raise IndexError.
Proof.
  apply (frame_past_end_raises Simple.odometry [] [8; 12] 12
           simple_reachable simple_not_nan).
  - repeat constructor.
  - right; left; reflexivity.
  - intros k [<-|[<-|[]]]; reflexivity.
Defined.

(** X10 at work: two frames in a row. *)
Lemma register_frame_twice_witness :
  exists delta1 delta2,
    motion_delta Simple.odometry [2; 8] = Ok delta1 /\
    motion_delta Simple.odometry [0; 10] = Ok delta2 /\
    Simple.translation 16 0 0 = Simple.mul4 (Simple.mul4 eye4 delta1) delta2.
Proof.
  destruct (register_frame_twice Simple.odometry
              [] [2; 8] ([], None)
              (advanced Simple.odometry 1 [] (Simple.translation 6 0 0))
              [] [0; 10] ([], None)
              (advanced
                 (advanced Simple.odometry 1 [] (Simple.translation 6 0 0))
                 1 [] (Simple.translation 10 0 0))
              eq_refl eq_refl)
    as (d1 & d2 & H1 & H2 & H3 & _).
  exists d1, d2. auto.
Defined.

Local Open Scope string_scope.

(** X11 at work: an upper-case name gets the dataloader's spelling. *)
Lemma name_callback_canonical_witness :
  exists before after,
    Examples.dataloaders = (before ++ "Rosbag" :: after)%list.
Proof.
  destruct (CliFacts.name_callback_canonical Examples.dataloaders
              "ROSBAG" "Rosbag")
    as (before & after & H & _); [discriminate | reflexivity |].
  exists before, after. exact H.
Defined.

(** X12 at work: a name that no dataloader has. *)
Lemma name_callback_bad_parameter_witness :
  exists m,
    Cli.name_callback Examples.dataloaders (Some "kitti") = Cli.BadParameter m.
Proof.
  apply (CliFacts.name_callback_bad_parameter Examples.dataloaders "kitti");
    [discriminate|].
  intros d [<-|[<-|[<-|[]]]] H; vm_compute in H; discriminate.
Defined.

(** X13 at work: the callback on its own result. *)
Lemma name_callback_idempotent_witness :
  Cli.name_callback Examples.dataloaders (Some "Rosbag")
  = Cli.Return (Some "Rosbag").
Proof.
  apply (CliFacts.name_callback_idempotent Examples.dataloaders
           (Some "ROSBAG") (Some "Rosbag")).
  reflexivity.
Defined.

(** X14 at work: two spellings of one name. *)
Lemma name_callback_ignores_case_witness :
  Cli.name_callback Examples.dataloaders (Some "helipr")
  = Cli.name_callback Examples.dataloaders (Some "HELIPR").
Proof.
  apply (CliFacts.name_callback_ignores_case Examples.dataloaders
           "helipr" "HELIPR").
  reflexivity.
Defined.

Lemma config_file_keys :
  NoDup (map fst (Cli.file_mapping (Some Examples.config_file))).
Proof.
  repeat constructor; simpl; intuition discriminate.
Qed.

(** X15 at work: no [--log_dir], and a file that sets the key to null. *)
Lemma config_log_dir_witness :
  Cli.kw_get
    (Cli.user_rko_lio_config Examples.OPath Examples.OStr Examples.basename
       (Some Examples.config_file) None None "data")
    "log_dir"
  = Some Examples.ONull.
Proof.
  apply (CliFacts.config_log_dir Examples.obj Examples.OPath Examples.OStr
           Examples.basename (Some Examples.config_file) None None "data"
           config_file_keys).
Defined.

(** X16 at work: an empty [--run_name] leaves the file's name in place. *)
Lemma config_run_name_witness :
  Cli.kw_get
    (Cli.user_rko_lio_config Examples.OPath Examples.OStr Examples.basename
       (Some Examples.config_file) None (Some "") "data")
    "run_name"
  = Some (Examples.OStr "night").
Proof.
  apply (CliFacts.config_run_name Examples.obj Examples.OPath Examples.OStr
           Examples.basename (Some Examples.config_file) None (Some "")
           "data" config_file_keys).
Defined.

(** X17 at work: a key of the file that the command line does not
    know. *)
Lemma config_other_keys_witness :
  Cli.kw_get
    (Cli.user_rko_lio_config Examples.OPath Examples.OStr Examples.basename
       (Some Examples.config_file) (Some "out") (Some "day") "data")
    "deskew"
  = Some (Examples.OStr "true").
Proof.
  apply (CliFacts.config_other_keys Examples.obj Examples.OPath Examples.OStr
           Examples.basename (Some Examples.config_file) (Some "out")
           (Some "day") "data" "deskew" config_file_keys);
    discriminate.
Defined.

End MoreInstances.
